(** * TuiLife: the Screen abstraction of gui.c

    A shallow embedding of the pixel buffer, the 2x3 block packing and the
    glyph renderer of [gui.c], with the C heap, the allocator and the
    diagnostics stream made explicit. *)

From Stdlib Require Import ZArith Lia List String DecimalString.
From stdpp Require Import base option list gmap.

Local Open Scope Z_scope.

(** ** Machine integers *)

(** Conversion to [uint8_t] and [uint16_t]: reduction modulo 2^8 and 2^16. *)
Definition u8 (z : Z) : Z := z mod 256.
Definition u16 (z : Z) : Z := z mod 65536.

Definition is_u8 (z : Z) : Prop := 0 <= z < 256.

(** ** The glyph table *)

Definition char_map : list string :=
  [ " ";"𜹰";"𜹠";"𜺀"; "𜹘";"𜹸";"𜹨";"𜺈"; "𜹔";"𜹴";"𜹤";"𜺄"; "𜹜";"𜹼";"𜹬";"𜺌";
    "𜹒";"𜹲";"𜹢";"𜺂"; "𜹚";"𜹺";"𜹪";"𜺊"; "𜹖";"𜹶";"𜹦";"𜺆"; "𜹞";"𜹾";"𜹮";"𜺎";
    "𜹑";"𜹱";"𜹡";"𜺁"; "𜹙";"𜹹";"𜹩";"𜺉"; "𜹕";"𜹵";"𜹥";"𜺅"; "𜹝";"𜹽";"𜹭";"𜺍";
    "𜹓";"𜹳";"𜹣";"𜺃"; "𜹛";"𜹻";"𜹫";"𜺋"; "𜹗";"𜹷";"𜹧";"𜺇"; "𜹟";"𜹿";"𜹯";"𜺏" ]%string.

(** ** Block packing *)

(** [arr[i]] of a C [bool arr[6]]; the array is read at [i < 6] only. *)
Definition arr_at (arr : list bool) (i : nat) : bool := nth i arr false.

(** One turn of the loop of [boolsToInt]:
    [result = (result << 1) | (uint8_t) arr[i]]. *)
Definition boolsToInt_step (arr : list bool) (result : Z) (i : nat) : Z :=
  u8 (Z.lor (Z.shiftl result 1) (u8 (Z.b2z (arr_at arr i)))).

Definition boolsToInt (arr : list bool) : Z :=
  fold_left (boolsToInt_step arr) (seq 0 6) 0.

(** [char_map[boolsToInt(arr)]]; [None] is an access outside the table. *)
Definition boolsToString (arr : list bool) : option string :=
  char_map !! Z.to_nat (boolsToInt arr).

(** ** Status codes and the combined return value *)

Definition SCREEN_READY : Z := 1.
Definition SCREEN_SUCCESS : Z := 2.
Definition SCREEN_ERROR : Z := 4.
Definition SCREEN_READY_BIT : Z := Z.shiftl SCREEN_READY 8.
Definition SCREEN_SUCCESS_BIT : Z := Z.shiftl SCREEN_SUCCESS 8.
Definition SCREEN_ERROR_BIT : Z := Z.shiftl SCREEN_ERROR 8.

Definition joinReturn (status data : Z) : Z :=
  u16 (Z.lor (Z.shiftl (u16 status) 8) data).

Definition returnError (value : Z) : Z :=
  u8 (if Z.land value 65280 =? SCREEN_SUCCESS_BIT then 0 else Z.shiftr value 8).

Definition returnData (value : Z) : Z :=
  u8 (Z.land value 255).

(** ** The C state: the Screen struct, the heap, the allocator, stderr *)

(** A pointer into the heap; [None] is [NULL]. *)
Definition ptr : Type := option positive.

(** A heap block: a [bool] array or a [uint8_t] array. *)
Inductive block : Type :=
  | BoolBlock (cells : list bool)
  | ByteBlock (cells : list Z).

Record Screen : Type := mkScreen {
  status : Z;
  width : Z;
  height : Z;
  flags : Z;
  data : ptr;
  render : ptr
}.

(** [calloc_ok n] tells whether the [n]-th call of [calloc] succeeds;
    [brk] is the next address [calloc] hands out. *)
Record World : Type := mkWorld {
  screen : Screen;
  heap : gmap positive block;
  brk : positive;
  ncalloc : nat;
  calloc_ok : nat -> bool;
  stderr : list string
}.

(** The [Screen *scr] argument: the functions below are called on [NULL] or
    on the address of the one Screen object of the program. *)
Inductive screen_ptr : Type :=
  | SCR_NULL
  | SCR_VALID.

(** Computations on the C state; [None] is undefined behaviour (a load or
    store through [NULL], outside a block or in a freed block, or a [free] of
    a block that is not live). *)
Definition M (A : Type) : Type := World -> option (A * World).

Definition ret {A} (a : A) : M A := fun w => Some (a, w).
Definition fault {A} : M A := fun _ => None.
Definition bind {A B} (m : M A) (k : A -> M B) : M B :=
  fun w => match m w with
           | Some (a, w') => k a w'
           | None => None
           end.

Declare Scope c_scope.
Delimit Scope c_scope with C.
Notation "x <- c1 ;; c2" := (bind c1 (fun x => c2))
  (at level 100, c1 at next level, right associativity) : c_scope.
Notation "c1 ;; c2" := (bind c1 (fun _ => c2))
  (at level 100, right associativity) : c_scope.
Local Open Scope c_scope.

Definition with_screen (s : Screen) (w : World) : World :=
  mkWorld s (heap w) (brk w) (ncalloc w) (calloc_ok w) (stderr w).
Definition with_heap (h : gmap positive block) (w : World) : World :=
  mkWorld (screen w) h (brk w) (ncalloc w) (calloc_ok w) (stderr w).

Definition get_screen : M Screen := fun w => Some (screen w, w).
Definition put_screen (s : Screen) : M unit := fun w => Some (tt, with_screen s w).

(** [fprintf(stderr, msg)] *)
Definition logged (msg : string) (w : World) : World :=
  mkWorld (screen w) (heap w) (brk w) (ncalloc w) (calloc_ok w) (stderr w ++ [msg]).
Definition eprint (msg : string) : M unit :=
  fun w => Some (tt, logged msg w).

(** [calloc]: a fresh zeroed block, or [NULL] when the allocation fails. *)
Definition calloc (zeroed : block) : M ptr :=
  fun w =>
    if calloc_ok w (ncalloc w)
    then Some (Some (brk w),
               mkWorld (screen w) (<[brk w := zeroed]> (heap w)) (Pos.succ (brk w))
                       (S (ncalloc w)) (calloc_ok w) (stderr w))
    else Some (None,
               mkWorld (screen w) (heap w) (brk w)
                       (S (ncalloc w)) (calloc_ok w) (stderr w)).

Definition calloc_bool (n : Z) : M ptr :=
  calloc (BoolBlock (replicate (Z.to_nat n) false)).
Definition calloc_u8 (n : Z) : M ptr :=
  calloc (ByteBlock (replicate (Z.to_nat n) 0)).

(** [free(p)]: nothing on [NULL], undefined on a block that is not live. *)
Definition free (p : ptr) : M unit :=
  fun w =>
    match p with
    | None => Some (tt, w)
    | Some a =>
        match heap w !! a with
        | Some _ => Some (tt, with_heap (delete a (heap w)) w)
        | None => None
        end
    end.

(** [p[i]] on a [bool *]. *)
Definition load_bool (p : ptr) (i : Z) : M bool :=
  fun w =>
    match p with
    | None => None
    | Some a =>
        match heap w !! a with
        | Some (BoolBlock l) =>
            if i <? 0 then None
            else match l !! Z.to_nat i with
                 | Some b => Some (b, w)
                 | None => None
                 end
        | _ => None
        end
    end.

(** [p[i] = v] on a [bool *]. *)
Definition store_bool (p : ptr) (i : Z) (v : bool) : M unit :=
  fun w =>
    match p with
    | None => None
    | Some a =>
        match heap w !! a with
        | Some (BoolBlock l) =>
            if (i <? 0) || (Z.of_nat (length l) <=? i) then None
            else Some (tt, with_heap (<[a := BoolBlock (<[Z.to_nat i := v]> l)]> (heap w)) w)
        | _ => None
        end
    end.

(** [p[i] = v] on a [uint8_t *]. *)
Definition store_u8 (p : ptr) (i : Z) (v : Z) : M unit :=
  fun w =>
    match p with
    | None => None
    | Some a =>
        match heap w !! a with
        | Some (ByteBlock l) =>
            if (i <? 0) || (Z.of_nat (length l) <=? i) then None
            else Some (tt, with_heap (<[a := ByteBlock (<[Z.to_nat i := u8 v]> l)]> (heap w)) w)
        | _ => None
        end
    end.

(** [p[i]] on a [uint8_t *]. *)
Definition load_u8 (p : ptr) (i : Z) : M Z :=
  fun w =>
    match p with
    | None => None
    | Some a =>
        match heap w !! a with
        | Some (ByteBlock l) =>
            if i <? 0 then None
            else match l !! Z.to_nat i with
                 | Some b => Some (b, w)
                 | None => None
                 end
        | _ => None
        end
    end.

(** [for (int i = from; ...; i++) body], run [count] times. *)
Fixpoint for_from (from : Z) (count : nat) (body : Z -> M unit) : M unit :=
  match count with
  | O => ret tt
  | S c => body from ;; for_from (from + 1) c body
  end.

(** [for (int i = 0; i < n; i++) body], the bound fixed before the loop. *)
Definition for_lt (n : Z) (body : Z -> M unit) : M unit :=
  for_from 0 (Z.to_nat n) body.

(** ** The Screen operations *)

Definition set_status (v : Z) (s : Screen) : Screen :=
  mkScreen v (width s) (height s) (flags s) (data s) (render s).
Definition set_width (v : Z) (s : Screen) : Screen :=
  mkScreen (status s) v (height s) (flags s) (data s) (render s).
Definition set_height (v : Z) (s : Screen) : Screen :=
  mkScreen (status s) (width s) v (flags s) (data s) (render s).
Definition set_flags (v : Z) (s : Screen) : Screen :=
  mkScreen (status s) (width s) (height s) v (data s) (render s).
Definition set_data (p : ptr) (s : Screen) : Screen :=
  mkScreen (status s) (width s) (height s) (flags s) p (render s).
Definition set_render (p : ptr) (s : Screen) : Screen :=
  mkScreen (status s) (width s) (height s) (flags s) (data s) p.

(** [scr->field = v] *)
Definition modify_screen (f : Screen -> Screen) : M unit :=
  fun w => Some (tt, with_screen (f (screen w)) w).

Definition endl : string := String (Ascii.ascii_of_nat 10) EmptyString.

Definition initScreen (scr : screen_ptr) (flags width height : Z) : M Z :=
  match scr with
  | SCR_NULL =>
      eprint ("[E] Screen pointer invalid!" ++ endl) ;;
      ret 0
  | SCR_VALID =>
      modify_screen (set_status SCREEN_READY) ;;
      modify_screen (set_flags flags) ;;
      modify_screen (set_width width) ;;
      modify_screen (set_height height) ;;
      d <- calloc_bool (width * height) ;;
      modify_screen (set_data d) ;;
      r <- calloc_u8 ((width / 2 + 1) * (height / 3 + 1)) ;;
      modify_screen (set_render r) ;;
      s <- get_screen ;;
      if bool_decide (data s = None) || bool_decide (render s = None)
      then eprint ("Error allocating memory during initialization" ++ endl) ;;
           ret (joinReturn SCREEN_ERROR 0)
      else ret (joinReturn SCREEN_SUCCESS 0)
  end.

Definition resizeScreen (scr : screen_ptr) (width height : Z) : M Z :=
  match scr with
  | SCR_NULL =>
      eprint ("[E] Screen pointer invalid!" ++ endl) ;;
      ret (joinReturn SCREEN_ERROR 0)
  | SCR_VALID =>
      s <- get_screen ;;
      (if bool_decide (data s = None) then ret tt
       else free (data s) ;;
            free (render s) ;;
            modify_screen (set_data None)) ;;
      modify_screen (set_width width) ;;
      modify_screen (set_height height) ;;
      d <- calloc_bool (width * height) ;;
      modify_screen (set_data d) ;;
      r <- calloc_u8 ((width / 2 + 1) * (height / 3 + 1)) ;;
      modify_screen (set_render r) ;;
      s <- get_screen ;;
      if bool_decide (data s = None) || bool_decide (render s = None)
      then eprint ("Error allocating memory during resize" ++ endl) ;;
           ret (joinReturn SCREEN_ERROR 0)
      else ret (joinReturn SCREEN_SUCCESS 0)
  end.

Definition getScreenPixel (scr : screen_ptr) (x y : Z) : M bool :=
  match scr with
  | SCR_NULL =>
      eprint ("[E] Screen pointer invalid!" ++ endl) ;;
      ret false
  | SCR_VALID =>
      s <- get_screen ;;
      if negb (status s =? SCREEN_READY)
      then initScreen scr 0 20 20 ;;
           eprint ("[E] Screen not initialized!" ++ endl) ;;
           ret false
      else if (width s <=? x) || (height s <=? y)
      then ret false
      else load_bool (data s) (y * width s + x)
  end.

Definition setScreenPixel (scr : screen_ptr) (x y : Z) (value : bool) : M Z :=
  match scr with
  | SCR_NULL =>
      eprint ("[E] Screen pointer invalid!" ++ endl) ;;
      ret (joinReturn SCREEN_ERROR 0)
  | SCR_VALID =>
      s <- get_screen ;;
      if negb (status s =? SCREEN_READY)
      then initScreen scr 0 20 20 ;;
           eprint ("[E] Screen not initialized! setPixel" ++ endl) ;;
           ret (joinReturn SCREEN_ERROR 0)
      else if (width s <=? x) || (height s <=? y)
      then ret 0
      else store_bool (data s) (y * width s + x) value ;;
           ret (joinReturn SCREEN_SUCCESS 0)
  end.

(** The body of the inner loop of [renderScreen] at block [(x, y)]; each
    coordinate handed to [getScreenPixel] is converted to [uint8_t]. *)
Definition renderScreen_body (scr : screen_ptr) (width x y : Z) : M unit :=
  let index := u16 (y * width + x) in
  i0 <- getScreenPixel scr (u8 (x * 2 + 0)) (u8 (y * 3 + 0)) ;;
  i1 <- getScreenPixel scr (u8 (x * 2 + 1)) (u8 (y * 3 + 0)) ;;
  i2 <- getScreenPixel scr (u8 (x * 2 + 0)) (u8 (y * 3 + 1)) ;;
  i3 <- getScreenPixel scr (u8 (x * 2 + 1)) (u8 (y * 3 + 1)) ;;
  i4 <- getScreenPixel scr (u8 (x * 2 + 0)) (u8 (y * 3 + 2)) ;;
  i5 <- getScreenPixel scr (u8 (x * 2 + 1)) (u8 (y * 3 + 2)) ;;
  s <- get_screen ;;
  store_u8 (render s) index (boolsToInt [i0; i1; i2; i3; i4; i5]).

Definition renderScreen (scr : screen_ptr) : M unit :=
  match scr with
  | SCR_NULL => fault
  | SCR_VALID =>
      s <- get_screen ;;
      let width := u8 (width s / 2 + 1) in
      let height := u8 (height s / 3 + 1) in
      for_lt height (fun y => for_lt width (fun x => renderScreen_body scr width x y))
  end.

(** The table lookup of [printScreen] at cell [index],
    [char_map[scr->render[index]]]; an index outside the table is undefined
    behaviour. *)
Definition printScreen_glyph (index : Z) : M string :=
  s <- get_screen ;;
  c <- load_u8 (render s) index ;;
  match char_map !! Z.to_nat c with
  | Some g => ret g
  | None => fault
  end.

(** ** Running the program on concrete inputs *)

(** An uninitialised Screen on an empty heap; [ok] is the allocator. *)
Definition boot (ok : nat -> bool) : World :=
  mkWorld (mkScreen 0 0 0 0 None None) ∅ 1%positive 0%nat ok [].

Definition always : nat -> bool := fun _ => true.

(** The contents of the two arrays of the screen, when they are live. *)
Definition pixels (w : World) : option (list bool) :=
  match data (screen w) with
  | Some a => match heap w !! a with Some (BoolBlock l) => Some l | _ => None end
  | None => None
  end.
Definition glyphs (w : World) : option (list Z) :=
  match render (screen w) with
  | Some a => match heap w !! a with Some (ByteBlock l) => Some l | _ => None end
  | None => None
  end.

Definition exec {A} (m : M A) (w : World) : option World :=
  match m w with Some (_, w') => Some w' | None => None end.

(** ** Specification-level descriptions *)

(** The sum of [arr[i] * 2^(5-i)] over the six positions. *)
Definition bit_sum (arr : list bool) : Z :=
  fold_right Z.add 0
    (map (fun i => Z.b2z (arr_at arr i) * 2 ^ (5 - Z.of_nat i)) (seq 0 6)).

(** Bit [5 - i] of [n] at position [i]. *)
Definition intToBools (n : Z) : list bool :=
  map (fun i => Z.testbit n (5 - Z.of_nat i)) (seq 0 6).

Definition ready (w : World) : Prop := status (screen w) = SCREEN_READY.

Definition glyphWidth (s : Screen) : Z := width s / 2 + 1.
Definition glyphHeight (s : Screen) : Z := height s / 3 + 1.

(** The data-model invariant: byte-sized dimensions, a live pixel array of
    [width * height] entries and a live glyph array of
    [glyphWidth * glyphHeight] entries. *)
Definition has_pixels (w : World) : Prop :=
  exists l, pixels w = Some l /\
            Z.of_nat (length l) = width (screen w) * height (screen w).
Definition has_glyphs (w : World) : Prop :=
  exists g, glyphs w = Some g /\
            Z.of_nat (length g) = glyphWidth (screen w) * glyphHeight (screen w).
Definition allocated (w : World) : Prop :=
  is_u8 (width (screen w)) /\ is_u8 (height (screen w)) /\
  has_pixels w /\ has_glyphs w.

(** [calloc] never hands out a live address. *)
Definition heap_fresh (w : World) : Prop :=
  forall a, (brk w <= a)%positive -> heap w !! a = None.

(** What a read at [(x, y)] sees in a pixel array [l] of a ready screen. *)
Definition pixel_at (s : Screen) (l : list bool) (x y : Z) : bool :=
  if (width s <=? x) || (height s <=? y) then false
  else nth (Z.to_nat (y * width s + x)) l false.

(** The six pixels of block [(bx, by)], read at the mathematical
    coordinates, and at the coordinates as [uint8_t]. *)
Definition block_pixels (s : Screen) (l : list bool) (bx by_ : Z) : list bool :=
  [ pixel_at s l (bx * 2 + 0) (by_ * 3 + 0); pixel_at s l (bx * 2 + 1) (by_ * 3 + 0);
    pixel_at s l (bx * 2 + 0) (by_ * 3 + 1); pixel_at s l (bx * 2 + 1) (by_ * 3 + 1);
    pixel_at s l (bx * 2 + 0) (by_ * 3 + 2); pixel_at s l (bx * 2 + 1) (by_ * 3 + 2) ].
Definition block_pixels_u8 (s : Screen) (l : list bool) (bx by_ : Z) : list bool :=
  [ pixel_at s l (u8 (bx * 2 + 0)) (u8 (by_ * 3 + 0));
    pixel_at s l (u8 (bx * 2 + 1)) (u8 (by_ * 3 + 0));
    pixel_at s l (u8 (bx * 2 + 0)) (u8 (by_ * 3 + 1));
    pixel_at s l (u8 (bx * 2 + 1)) (u8 (by_ * 3 + 1));
    pixel_at s l (u8 (bx * 2 + 0)) (u8 (by_ * 3 + 2));
    pixel_at s l (u8 (bx * 2 + 1)) (u8 (by_ * 3 + 2)) ].

(** The value [renderScreen] stores at the row-major cell index [i]. *)
Definition cell_value (s : Screen) (l : list bool) (i : Z) : Z :=
  boolsToInt (block_pixels_u8 s l (i mod glyphWidth s) (i / glyphWidth s)).

(** Storing [f i] at the [count] consecutive indices from [from]. *)
Fixpoint fill (f : Z -> Z) (from : Z) (count : nat) (g : list Z) : list Z :=
  match count with
  | O => g
  | S c => fill f (from + 1) c (<[Z.to_nat from := f from]> g)
  end.

(** The whole glyph array after a render of the pixel array [l]. *)
Definition render_cells (s : Screen) (l : list bool) : list Z :=
  map (fun i => cell_value s l (Z.of_nat i))
      (seq 0 (Z.to_nat (glyphWidth s * glyphHeight s))).

(** The world with the contents [g] in the glyph array. *)
Definition with_glyphs (g : list Z) (w : World) : World :=
  match render (screen w) with
  | Some r => with_heap (<[r := ByteBlock g]> (heap w)) w
  | None => w
  end.

(** The world with the contents [l] in the pixel array. *)
Definition with_pixels (l : list bool) (w : World) : World :=
  match data (screen w) with
  | Some d => with_heap (<[d := BoolBlock l]> (heap w)) w
  | None => w
  end.

(** The state left by the two allocations that end [initScreen] and
    [resizeScreen], by their outcome; [st] and [fl] are the status and flags
    of the screen, [msg] the message logged on failure. *)
Definition alloc_world (st fl wd ht : Z) (msg : string) (w : World) : World :=
  let pix := BoolBlock (replicate (Z.to_nat (wd * ht)) false) in
  let gly := ByteBlock (replicate (Z.to_nat ((wd / 2 + 1) * (ht / 3 + 1))) 0) in
  match calloc_ok w (ncalloc w), calloc_ok w (S (ncalloc w)) with
  | true, true =>
      mkWorld (mkScreen st wd ht fl (Some (brk w)) (Some (Pos.succ (brk w))))
              (<[Pos.succ (brk w) := gly]> (<[brk w := pix]> (heap w)))
              (Pos.succ (Pos.succ (brk w))) (S (S (ncalloc w))) (calloc_ok w) (stderr w)
  | true, false =>
      mkWorld (mkScreen st wd ht fl (Some (brk w)) None)
              (<[brk w := pix]> (heap w))
              (Pos.succ (brk w)) (S (S (ncalloc w))) (calloc_ok w) (stderr w ++ [msg])
  | false, true =>
      mkWorld (mkScreen st wd ht fl None (Some (brk w)))
              (<[brk w := gly]> (heap w))
              (Pos.succ (brk w)) (S (S (ncalloc w))) (calloc_ok w) (stderr w ++ [msg])
  | false, false =>
      mkWorld (mkScreen st wd ht fl None None)
              (heap w)
              (brk w) (S (S (ncalloc w))) (calloc_ok w) (stderr w ++ [msg])
  end.

Definition init_msg : string := "Error allocating memory during initialization" ++ endl.
Definition resize_msg : string := "Error allocating memory during resize" ++ endl.

Definition init_world (fl wd ht : Z) (w : World) : World :=
  alloc_world SCREEN_READY fl wd ht init_msg w.

(** The status byte the two allocations lead to. *)
Definition init_status (w : World) : Z :=
  if calloc_ok w (ncalloc w) && calloc_ok w (S (ncalloc w))
  then SCREEN_SUCCESS else SCREEN_ERROR.

(** ** Concrete screens *)

(** The state after [initScreen(&scr, 0, 2, 3)] on an empty heap. *)
Definition demo_world : World :=
  mkWorld (mkScreen SCREEN_READY 2 3 0 (Some 1%positive) (Some 2%positive))
          (<[2%positive := ByteBlock (replicate 4 0)]>
             (<[1%positive := BoolBlock (replicate 6 false)]> ∅))
          3%positive 2%nat always [].

(** A 2x3 screen with every pixel set. *)
Definition full_world : World :=
  with_pixels (replicate 6 true) demo_world.

(** A 1x255 screen with the pixel (0, 0) set. *)
Definition tall_world : World :=
  Eval vm_compute in
    default (boot always)
      (exec (initScreen SCR_VALID 0 1 255 ;; setScreenPixel SCR_VALID 0 0 true)
            (boot always)).

(** The glyph array a render produces, and its pixel blocks. *)
Definition rendered (w : World) : option (list Z) :=
  match renderScreen SCR_VALID w with
  | Some (_, w') => glyphs w'
  | None => None
  end.
Definition rendered_cell (w : World) (i : nat) : option Z :=
  match rendered w with
  | Some g => g !! i
  | None => None
  end.
Definition block_of (w : World) (bx by_ : Z) : option (list bool) :=
  match pixels w with
  | Some l => Some (block_pixels (screen w) l bx by_)
  | None => None
  end.

(** An allocator whose first call fails and whose later calls succeed. *)
Definition first_fails : nat -> bool := fun n => negb (Nat.eqb n 0).

(** An allocator whose third call fails and whose other calls succeed. *)
Definition third_fails : nat -> bool := fun n => negb (Nat.eqb n 2).

(** The states along [initScreen(&scr, 0, 2, 3)], [resizeScreen(&scr, 4, 6)]
    and [resizeScreen(&scr, 1, 1)] from an empty heap, when the pixel
    allocation of the first resize fails. *)
Definition leak_world1 : World :=
  Eval vm_compute in
    default (boot third_fails)
      (exec (initScreen SCR_VALID 0 2 3) (boot third_fails)).
Definition leak_world2 : World :=
  Eval vm_compute in
    default leak_world1 (exec (resizeScreen SCR_VALID 4 6) leak_world1).
Definition leak_world3 : World :=
  Eval vm_compute in
    default leak_world2 (exec (resizeScreen SCR_VALID 1 1) leak_world2).

(** The state after [initScreen(&scr, 0, 2, 3)] when the pixel array could
    not be allocated. *)
Definition half_world : World :=
  mkWorld (mkScreen SCREEN_READY 2 3 0 None (Some 1%positive))
          (<[1%positive := ByteBlock (replicate 4 0)]> ∅)
          2%positive 2%nat first_fails [init_msg].

(** ** The remaining Screen functions of gui.c *)

(** [destroyScreen] dereferences [scr] without a check. *)
Definition destroyScreen (scr : screen_ptr) : M unit :=
  match scr with
  | SCR_NULL => fault
  | SCR_VALID =>
      s <- get_screen ;;
      (if bool_decide (data s = None) then ret tt
       else free (data s) ;;
            modify_screen (set_data None)) ;;
      s <- get_screen ;;
      (if bool_decide (render s = None) then ret tt
       else free (render s) ;;
            modify_screen (set_render None))
  end.

(** [for] loop that threads a local value ([buf], the output so far). *)
Fixpoint for_acc {A} (from : Z) (count : nat) (body : Z -> A -> M A) (a : A) : M A :=
  match count with
  | O => ret a
  | S c => a' <- body from a ;; for_acc (from + 1) c body a'
  end.

(** [strcat(dst, src)] on a [dst] buffer of [cap] bytes: writing past the
    buffer, terminator included, is undefined. *)
Definition strcat (cap : nat) (dst src : string) : M string :=
  if (String.length dst + String.length src + 1 <=? cap)%nat
  then ret (dst ++ src)%string
  else fault.

Definition ESC : string := String (Ascii.ascii_of_nat 27) EmptyString.

(** [%d] of [printf]. *)
Definition dec (n : Z) : string := NilZero.string_of_int (Z.to_int n).

(** [printXY]: the bytes its [printf("\033[%d;%dH%s", x, y, str)] writes. *)
Definition printXY (x y : Z) (str : string) : string :=
  (ESC ++ "[" ++ dec x ++ ";" ++ dec y ++ "H" ++ str)%string.

(** One turn of the outer loop of [printScreen]: the contents of
    [char buf[512+1]] after the inner loop. *)
Definition printScreen_row (width y : Z) : M string :=
  for_acc 0 (Z.to_nat width)
    (fun x buf =>
       g <- printScreen_glyph (u16 (y * width + x)) ;;
       strcat 513 buf g)
    EmptyString.

(** [printScreen] returns what it writes to stdout, one string for each
    call of [printf], in order. *)
Definition printScreen (scr : screen_ptr) : M (list string) :=
  match scr with
  | SCR_NULL => fault
  | SCR_VALID =>
      s <- get_screen ;;
      let width := u8 (width s / 2 + 1) in
      let height := u8 (height s / 3 + 1) in
      out <- for_acc 0 (Z.to_nat height)
               (fun y out =>
                  buf <- printScreen_row width y ;;
                  ret (out ++ [printXY (y + 2) 2 buf]))
               [] ;;
      ret (out ++ [endl])
  end.

(** The argument [(bool) (rand() % 2)-1] of [setScreenPixel] in [main], for
    a value [r] of [rand()]: the cast applies to [rand() % 2], the
    difference is an [int], and the [bool] parameter is true when it is
    not 0. *)
Definition demo_pixel (r : Z) : bool :=
  negb (Z.b2z (negb (Z.rem r 2 =? 0)) - 1 =? 0).

(** ** Further specification-level descriptions *)

(** Each pointer of the screen is [NULL] or a live block of its kind. *)
Definition owned (w : World) : Prop :=
  (forall d, data (screen w) = Some d -> exists l, heap w !! d = Some (BoolBlock l)) /\
  (forall r, render (screen w) = Some r -> exists g, heap w !! r = Some (ByteBlock g)).

(** The glyph of a cell value, and the text of row [y] of a glyph array of
    [gw] columns. *)
Definition glyph_of (c : Z) : string := nth (Z.to_nat c) char_map EmptyString.
Definition row_text (g : list Z) (gw : Z) (y : Z) : string :=
  fold_left (fun buf x => (buf ++ glyph_of (nth (Z.to_nat (y * gw) + x) g 0))%string)
            (seq 0 (Z.to_nat gw)) EmptyString.

(** The position of pixel [(x, y)] in its 2x3 block. *)
Definition block_pos (x y : Z) : Z := 2 * (y mod 3) + x mod 2.

(** The heap without the block of [p], if any. *)
Definition drop_block (p : ptr) (h : gmap positive block) : gmap positive block :=
  match p with
  | Some a => delete a h
  | None => h
  end.

(** The state [destroyScreen] leaves. *)
Definition destroy_world (w : World) : World :=
  mkWorld (set_render None (set_data None (screen w)))
          (drop_block (render (screen w)) (drop_block (data (screen w)) (heap w)))
          (brk w) (ncalloc w) (calloc_ok w) (stderr w).

(** The heap after the frees of [resizeScreen]: the glyph array is freed
    only together with a pixel array. *)
Definition resize_heap (w : World) : gmap positive block :=
  match data (screen w) with
  | Some d => drop_block (render (screen w)) (delete d (heap w))
  | None => heap w
  end.

(** The 2x3 screen of [demo_world] when the next allocation fails. *)
Definition tight_world : World :=
  mkWorld (screen demo_world) (heap demo_world) (brk demo_world) 0%nat
          first_fails (stderr demo_world).

(** The text of row [y] from column [x0] on, appended to [buf]. *)
Definition row_from (g : list Z) (gw : Z) (y : Z) (x0 n : nat) (buf : string) : string :=
  fold_left (fun buf x => (buf ++ glyph_of (nth (Z.to_nat (y * gw) + x) g 0))%string)
            (seq x0 n) buf.

(** What [printScreen] writes for a glyph array [g] of [gw] columns and
    [gh] rows. *)
Definition screen_text (g : list Z) (gw gh : Z) : list string :=
  map (fun y => printXY (Z.of_nat y + 2) 2 (row_text g gw (Z.of_nat y)))
      (seq 0 (Z.to_nat gh)) ++ [endl].

(** [n] spaces. *)
Fixpoint spaces (n : nat) : string :=
  match n with
  | O => EmptyString
  | S n => String (Ascii.ascii_of_nat 32) (spaces n)
  end.

(** * Properties *)

(** ** Block packing *)

Example boolsToInt_C_shape :
  boolsToInt [true; true; true; false; true; true] = 59.
Proof. reflexivity. Qed.

Lemma six_bools (arr : list bool) :
  length arr = 6%nat ->
  exists b0 b1 b2 b3 b4 b5, arr = [b0; b1; b2; b3; b4; b5].
Proof.
  intros H.
  do 6 (destruct arr as [|? arr]; [discriminate H|]).
  destruct arr; [|discriminate H]. eauto 7.
Qed.

Ltac six_cases arr H :=
  destruct (six_bools arr H) as (?b & ?b & ?b & ?b & ?b & ?b & ->);
  repeat match goal with b : bool |- _ => destruct b end.

Lemma boolsToInt_range (arr : list bool) :
  length arr = 6%nat -> 0 <= boolsToInt arr < 64.
Proof. intros H. six_cases arr H; vm_compute; split; congruence. Qed.

Lemma boolsToInt_bit_sum (arr : list bool) :
  length arr = 6%nat -> boolsToInt arr = bit_sum arr.
Proof. intros H. six_cases arr H; reflexivity. Qed.

Lemma intToBools_boolsToInt (arr : list bool) :
  length arr = 6%nat -> intToBools (boolsToInt arr) = arr.
Proof. intros H. six_cases arr H; reflexivity. Qed.

Lemma length_intToBools (n : Z) : length (intToBools n) = 6%nat.
Proof. reflexivity. Qed.

Lemma boolsToInt_intToBools (n : Z) :
  0 <= n < 64 -> boolsToInt (intToBools n) = n.
Proof.
  intros Hn.
  assert (Hall : forallb (fun k => boolsToInt (intToBools (Z.of_nat k)) =? Z.of_nat k)
                         (seq 0 64) = true) by (vm_compute; reflexivity).
  rewrite forallb_forall in Hall.
  specialize (Hall (Z.to_nat n)).
  rewrite Z2Nat.id in Hall by lia.
  apply Z.eqb_eq, Hall, in_seq. lia.
Qed.

Lemma boolsToInt_testbit (arr : list bool) (i : nat) :
  length arr = 6%nat -> (i < 6)%nat ->
  Z.testbit (boolsToInt arr) (5 - Z.of_nat i) = arr_at arr i.
Proof.
  intros H Hi.
  pose proof (intToBools_boolsToInt arr H) as E.
  apply (f_equal (fun l => arr_at l i)) in E. rewrite <- E.
  do 6 (destruct i as [|i]; [reflexivity|]). lia.
Qed.

(** C2: on six-element arrays [boolsToInt] is the sum of [arr[i] * 2^(5-i)]
    (so [arr[0]] is bit 5 and [arr[5]] is bit 0), its values lie in [0, 64),
    two arrays with the same value are equal, every [n] in [0, 64) is the
    value of some array, all-false packs to 0 and all-true to 63. *)
Theorem boolsToInt_bijection (a b : list bool) (n : Z)
    (Ha : length a = 6%nat) (Hb : length b = 6%nat) (Hn : 0 <= n < 64) :
  boolsToInt a = bit_sum a /\
  (forall i, (i < 6)%nat -> Z.testbit (boolsToInt a) (5 - Z.of_nat i) = arr_at a i) /\
  0 <= boolsToInt a < 64 /\
  (boolsToInt a = boolsToInt b -> a = b) /\
  (exists c, length c = 6%nat /\ boolsToInt c = n) /\
  boolsToInt (replicate 6 false) = 0 /\
  boolsToInt (replicate 6 true) = 63.
Proof.
  split; [by apply boolsToInt_bit_sum|].
  split; [intros i Hi; by apply boolsToInt_testbit|].
  split; [by apply boolsToInt_range|].
  split.
  { intros E. rewrite <- (intToBools_boolsToInt a Ha), <- (intToBools_boolsToInt b Hb).
    by rewrite E. }
  split.
  { exists (intToBools n). split; [apply length_intToBools|by apply boolsToInt_intToBools]. }
  split; reflexivity.
Qed.

Lemma boolsToInt_bijection_witness :
  boolsToInt [true; false; false; false; false; true] = 33 /\
  (boolsToInt [true; false; false; false; false; true]
   = boolsToInt [true; true; false; false; false; false] ->
   [true; false; false; false; false; true] = [true; true; false; false; false; false]) /\
  (exists c, length c = 6%nat /\ boolsToInt c = 42).
Proof.
  pose proof (boolsToInt_bijection
                [true; false; false; false; false; true]
                [true; true; false; false; false; false] 42
                eq_refl eq_refl ltac:(lia)) as (H1 & _ & _ & H4 & H5 & _).
  split; [exact H1|]. split; [exact H4|exact H5].
Defined.

(** ** The combined return value *)

Lemma lor_high_low (a b : Z) :
  0 <= a -> 0 <= b < 256 -> Z.lor (Z.shiftl a 8) b = a * 256 + b.
Proof.
  intros Ha Hb.
  rewrite Z.shiftl_mul_pow2 by lia. change (2 ^ 8) with 256.
  rewrite <- Z.add_lor_land.
  assert (Z.land (a * 256) b = 0) as ->; [|lia].
  apply Z.bits_inj'. intros n Hn. rewrite Z.land_spec, Z.bits_0.
  destruct (Z.lt_ge_cases n 8).
  - change 256 with (2 ^ 8). rewrite Z.mul_pow2_bits_low by lia. reflexivity.
  - assert (Z.testbit b n = false) as ->; [|apply andb_false_r].
    destruct (Z.eq_dec b 0) as [->|]; [apply Z.bits_0|].
    apply Z.bits_above_log2; [lia|].
    assert (Z.log2 b < 8); [|lia]. apply Z.log2_lt_pow2; lia.
Qed.

Lemma joinReturn_eq (s d : Z) :
  is_u8 s -> is_u8 d -> joinReturn s d = s * 256 + d.
Proof.
  unfold is_u8, joinReturn, u16. intros Hs Hd.
  rewrite (Z.mod_small s) by lia. rewrite lor_high_low by lia.
  apply Z.mod_small. lia.
Qed.

Lemma land_low (v : Z) : 0 <= v -> Z.land v 255 = v mod 256.
Proof.
  intros. change 255 with (Z.ones 8). rewrite Z.land_ones by lia. reflexivity.
Qed.

Lemma land_high (v : Z) : 0 <= v < 65536 -> Z.land v 65280 = v / 256 * 256.
Proof.
  intros Hv.
  assert (Z.land v 65535 = Z.land v 65280 + Z.land v 255) as E.
  { rewrite <- Z.add_lor_land.
    rewrite <- Z.land_lor_distr_r. change (Z.lor 65280 255) with 65535.
    rewrite (Z.land_comm v 255), Z.land_assoc, <- (Z.land_assoc v 65280 255).
    change (Z.land 65280 255) with 0.
    rewrite Z.land_0_r, Z.land_0_l. lia. }
  change 65535 with (Z.ones 16) in E. rewrite Z.land_ones in E by lia.
  rewrite land_low in E by lia. change (2 ^ 16) with 65536 in E.
  rewrite Z.mod_small in E by lia.
  pose proof (Z.div_mod v 256). lia.
Qed.

Lemma returnData_joinReturn (s d : Z) :
  is_u8 s -> is_u8 d -> returnData (joinReturn s d) = d.
Proof.
  intros Hs Hd. rewrite joinReturn_eq by assumption. unfold is_u8 in *.
  unfold returnData, u8. rewrite land_low by lia.
  rewrite Z.mod_mod by lia.
  rewrite Z.add_comm, Z.mod_add by lia. apply Z.mod_small; lia.
Qed.

Lemma returnError_joinReturn (s d : Z) :
  is_u8 s -> is_u8 d ->
  returnError (joinReturn s d) = if s =? SCREEN_SUCCESS then 0 else s.
Proof.
  intros Hs Hd. rewrite joinReturn_eq by assumption. unfold is_u8 in *.
  unfold returnError. rewrite land_high by lia.
  rewrite Z.shiftr_div_pow2 by lia. change (2 ^ 8) with 256.
  assert (E : (s * 256 + d) / 256 = s).
  { rewrite Z.add_comm, Z.div_add by lia. rewrite Z.div_small by lia. lia. }
  rewrite E. unfold SCREEN_SUCCESS_BIT, SCREEN_SUCCESS. change (Z.shiftl 2 8) with 512.
  destruct (Z.eqb_spec s 2), (Z.eqb_spec (s * 256) 512); try lia; unfold u8.
  - reflexivity.
  - apply Z.mod_small; lia.
Qed.

(** C10: for a status byte [s] and a data byte [d], [returnData] gives back
    [d], and [returnError] gives 0 when [s] is [SCREEN_SUCCESS] and [s]
    otherwise; so a status byte 0, and the plain 0 that an out-of-range
    [setScreenPixel] returns, decode to 0. *)
Theorem return_decode (s d : Z) (Hs : is_u8 s) (Hd : is_u8 d) :
  returnData (joinReturn s d) = d /\
  (s = SCREEN_SUCCESS -> returnError (joinReturn s d) = 0) /\
  (s <> SCREEN_SUCCESS -> returnError (joinReturn s d) = s) /\
  returnError (joinReturn 0 d) = 0 /\
  returnError 0 = 0.
Proof.
  split; [by apply returnData_joinReturn|].
  split; [|split; [|split]].
  - intros ->. by rewrite returnError_joinReturn.
  - intros Hne. rewrite returnError_joinReturn by done.
    destruct (Z.eqb_spec s SCREEN_SUCCESS); [done|reflexivity].
  - rewrite returnError_joinReturn by (done || (unfold is_u8; lia)). reflexivity.
  - reflexivity.
Qed.

Lemma return_decode_witness :
  returnData (joinReturn 4 7) = 7 /\ returnError (joinReturn 4 7) = 4.
Proof.
  assert (H4 : is_u8 4) by (unfold is_u8; lia).
  assert (H7 : is_u8 7) by (unfold is_u8; lia).
  pose proof (return_decode 4 7 H4 H7) as (H1 & _ & H3 & _).
  split; [exact H1|]. apply H3. unfold SCREEN_SUCCESS. lia.
Defined.

(** ** Reading and writing pixels *)

Lemma bind_Some {A B} (m : M A) (k : A -> M B) (w w' : World) (a : A) :
  m w = Some (a, w') -> bind m k w = k a w'.
Proof. unfold bind. by intros ->. Qed.

Lemma pixels_Some (w : World) (l : list bool) :
  pixels w = Some l ->
  exists d, data (screen w) = Some d /\ heap w !! d = Some (BoolBlock l).
Proof.
  unfold pixels. destruct (data (screen w)) as [d|]; [|done].
  destruct (heap w !! d) as [[?|?]|] eqn:E; [|done..].
  intros [= ->]. eauto.
Qed.

Lemma glyphs_Some (w : World) (g : list Z) :
  glyphs w = Some g ->
  exists r, render (screen w) = Some r /\ heap w !! r = Some (ByteBlock g).
Proof.
  unfold glyphs. destruct (render (screen w)) as [r|]; [|done].
  destruct (heap w !! r) as [[?|?]|] eqn:E; [done| |done].
  intros [= ->]. eauto.
Qed.

Lemma pixel_index_bound (W H x y : Z) :
  0 <= x < W -> 0 <= y < H -> 0 <= y * W + x < W * H.
Proof. nia. Qed.

(** On a ready screen a read neither faults nor changes the state. *)
Lemma getScreenPixel_ready (w : World) (l : list bool) (x y : Z) :
  ready w -> pixels w = Some l ->
  Z.of_nat (length l) = width (screen w) * height (screen w) ->
  0 <= x -> 0 <= y ->
  getScreenPixel SCR_VALID x y w = Some (pixel_at (screen w) l x y, w).
Proof.
  intros Hr Hp Hlen Hx Hy.
  destruct (pixels_Some w l Hp) as (d & Hd & Hh).
  unfold getScreenPixel, pixel_at, bind, get_screen. rewrite Hr. simpl.
  destruct ((width (screen w) <=? x) || (height (screen w) <=? y)) eqn:E; [done|].
  apply orb_false_elim in E as [Ex Ey].
  apply Z.leb_gt in Ex, Ey.
  pose proof (pixel_index_bound (width (screen w)) (height (screen w)) x y
                ltac:(lia) ltac:(lia)) as Hi.
  unfold load_bool. rewrite Hd, Hh.
  destruct (Z.ltb_spec (y * width (screen w) + x) 0); [lia|].
  destruct (nth_lookup_or_length l (Z.to_nat (y * width (screen w) + x)) false)
    as [->|]; [done|lia].
Qed.

Lemma getScreenPixel_outside (w : World) (x y : Z) :
  ready w -> width (screen w) <= x \/ height (screen w) <= y ->
  getScreenPixel SCR_VALID x y w = Some (false, w).
Proof.
  intros Hr Ho. unfold getScreenPixel, bind, get_screen. rewrite Hr. simpl.
  assert ((width (screen w) <=? x) || (height (screen w) <=? y) = true) as ->; [|done].
  apply orb_true_iff. rewrite !Z.leb_le. done.
Qed.

Lemma setScreenPixel_outside (w : World) (x y : Z) (v : bool) :
  ready w -> width (screen w) <= x \/ height (screen w) <= y ->
  setScreenPixel SCR_VALID x y v w = Some (0, w).
Proof.
  intros Hr Ho. unfold setScreenPixel, bind, get_screen. rewrite Hr. simpl.
  assert ((width (screen w) <=? x) || (height (screen w) <=? y) = true) as ->; [|done].
  apply orb_true_iff. rewrite !Z.leb_le. done.
Qed.

Lemma setScreenPixel_inside (w : World) (l : list bool) (x y : Z) (v : bool) :
  ready w -> pixels w = Some l ->
  Z.of_nat (length l) = width (screen w) * height (screen w) ->
  0 <= x < width (screen w) -> 0 <= y < height (screen w) ->
  setScreenPixel SCR_VALID x y v w =
    Some (joinReturn SCREEN_SUCCESS 0,
          with_pixels (<[Z.to_nat (y * width (screen w) + x) := v]> l) w).
Proof.
  intros Hr Hp Hlen Hx Hy.
  destruct (pixels_Some w l Hp) as (d & Hd & Hh).
  unfold setScreenPixel, bind, get_screen. rewrite Hr. simpl.
  assert ((width (screen w) <=? x) || (height (screen w) <=? y) = false) as ->.
  { apply orb_false_iff. rewrite !Z.leb_gt. lia. }
  pose proof (pixel_index_bound _ _ x y Hx Hy) as Hi.
  unfold store_bool, with_pixels. rewrite Hd, Hh.
  destruct (Z.ltb_spec (y * width (screen w) + x) 0); [lia|].
  destruct (Z.leb_spec (Z.of_nat (length l)) (y * width (screen w) + x)); [lia|].
  done.
Qed.

Lemma pixels_with_pixels (w : World) (l l' : list bool) :
  pixels w = Some l -> pixels (with_pixels l' w) = Some l'.
Proof.
  intros Hp. destruct (pixels_Some w l Hp) as (d & Hd & Hh).
  unfold with_pixels, pixels. rewrite Hd. simpl. rewrite Hd.
  by rewrite lookup_insert_eq.
Qed.

Lemma screen_with_pixels (w : World) (l' : list bool) :
  screen (with_pixels l' w) = screen w.
Proof. unfold with_pixels. by destruct (data (screen w)). Qed.

Lemma glyphs_with_pixels (w : World) (l l' : list bool) :
  pixels w = Some l -> glyphs (with_pixels l' w) = glyphs w.
Proof.
  intros Hp. destruct (pixels_Some w l Hp) as (d & Hd & Hh).
  unfold with_pixels, glyphs. rewrite Hd. simpl.
  destruct (render (screen w)) as [r|]; [|done].
  destruct (decide (d = r)) as [->|Hne].
  - rewrite lookup_insert_eq, Hh. done.
  - by rewrite lookup_insert_ne.
Qed.

Lemma set_then_get_at (w : World) (l : list bool) (x y : Z) (v : bool) :
  ready w -> pixels w = Some l ->
  Z.of_nat (length l) = width (screen w) * height (screen w) ->
  0 <= x < width (screen w) -> 0 <= y < height (screen w) ->
  exists w1,
    setScreenPixel SCR_VALID x y v w = Some (joinReturn SCREEN_SUCCESS 0, w1) /\
    getScreenPixel SCR_VALID x y w1 = Some (v, w1).
Proof.
  intros Hr Hp Hlen Hx Hy.
  eexists. split; [by eapply setScreenPixel_inside|].
  set (i := Z.to_nat (y * width (screen w) + x)).
  pose proof (pixel_index_bound _ _ x y Hx Hy) as Hi.
  erewrite getScreenPixel_ready; [| |by eapply pixels_with_pixels| |lia|lia].
  - f_equal. f_equal. unfold pixel_at. rewrite screen_with_pixels.
    assert ((width (screen w) <=? x) || (height (screen w) <=? y) = false) as ->.
    { apply orb_false_iff. rewrite !Z.leb_gt. lia. }
    fold i. apply nth_lookup_Some with (d := false).
    apply list_lookup_insert_eq. lia.
  - unfold ready. by rewrite screen_with_pixels.
  - rewrite screen_with_pixels, length_insert. done.
Qed.

(** C3: on a ready screen whose pixel array is live with [width * height]
    entries, writing [v] at an in-bounds coordinate returns success, and
    reading the coordinate back gives [v]. *)
Theorem set_then_get (w : World) (x y : Z) (v : bool)
    (Hready : ready w) (Hpixels : has_pixels w)
    (Hx : 0 <= x < width (screen w)) (Hy : 0 <= y < height (screen w)) :
  exists r w1,
    setScreenPixel SCR_VALID x y v w = Some (r, w1) /\
    returnError r = 0 /\
    getScreenPixel SCR_VALID x y w1 = Some (v, w1).
Proof.
  destruct Hpixels as (l & Hp & Hlen).
  destruct (set_then_get_at w l x y v Hready Hp Hlen Hx Hy) as (w1 & H1 & H2).
  exists (joinReturn SCREEN_SUCCESS 0), w1. done.
Qed.

(** C4: on a ready screen, at a coordinate with [x >= width] or
    [y >= height], a read gives [false] and a write leaves the whole state
    as it is and returns a value that decodes to no error. *)
Theorem out_of_range_silent (w : World) (x y : Z) (v : bool)
    (Hready : ready w)
    (Hout : width (screen w) <= x \/ height (screen w) <= y) :
  getScreenPixel SCR_VALID x y w = Some (false, w) /\
  exists r, setScreenPixel SCR_VALID x y v w = Some (r, w) /\ returnError r = 0.
Proof.
  split; [by apply getScreenPixel_outside|].
  exists 0. split; [by apply setScreenPixel_outside|reflexivity].
Qed.

(** ** Allocation: initScreen, the recovery path, resizeScreen *)

Lemma nth_replicate_false (n i : nat) : nth i (replicate n false) false = false.
Proof.
  rewrite nth_lookup. destruct (replicate n false !! i) as [b|] eqn:E; [|done].
  apply lookup_replicate in E as [-> _]. done.
Qed.

Lemma pixel_at_cleared (s : Screen) (n : nat) (x y : Z) :
  pixel_at s (replicate n false) x y = false.
Proof. unfold pixel_at. case_match; [done|apply nth_replicate_false]. Qed.

Lemma initScreen_valid (w : World) (fl wd ht : Z) :
  initScreen SCR_VALID fl wd ht w
  = Some (joinReturn (init_status w) 0, init_world fl wd ht w).
Proof.
  unfold initScreen, init_status, init_world, alloc_world, init_msg, bind, modify_screen, get_screen,
    calloc_bool, calloc_u8, calloc, eprint, logged, ret, with_screen.
  cbn [screen heap brk ncalloc calloc_ok stderr].
  destruct (calloc_ok w (ncalloc w)); cbn [screen heap brk ncalloc calloc_ok stderr];
    destruct (calloc_ok w (S (ncalloc w))); reflexivity.
Qed.

Lemma alloc_world_screen (w : World) (st fl wd ht : Z) (msg : string) :
  status (screen (alloc_world st fl wd ht msg w)) = st /\
  flags (screen (alloc_world st fl wd ht msg w)) = fl /\
  width (screen (alloc_world st fl wd ht msg w)) = wd /\
  height (screen (alloc_world st fl wd ht msg w)) = ht.
Proof.
  unfold alloc_world.
  destruct (calloc_ok w (ncalloc w)), (calloc_ok w (S (ncalloc w))); done.
Qed.

Lemma alloc_world_pixels (w : World) (st fl wd ht : Z) (msg : string) :
  if calloc_ok w (ncalloc w)
  then pixels (alloc_world st fl wd ht msg w)
       = Some (replicate (Z.to_nat (wd * ht)) false)
  else data (screen (alloc_world st fl wd ht msg w)) = None.
Proof.
  unfold alloc_world, pixels.
  destruct (calloc_ok w (ncalloc w)), (calloc_ok w (S (ncalloc w)));
    cbn [screen heap data]; try done.
  - rewrite lookup_insert_ne by lia. by rewrite lookup_insert_eq.
  - by rewrite lookup_insert_eq.
Qed.

Lemma alloc_world_glyphs (w : World) (st fl wd ht : Z) (msg : string) :
  if calloc_ok w (S (ncalloc w))
  then glyphs (alloc_world st fl wd ht msg w)
       = Some (replicate (Z.to_nat ((wd / 2 + 1) * (ht / 3 + 1))) 0)
  else render (screen (alloc_world st fl wd ht msg w)) = None.
Proof.
  unfold alloc_world, glyphs.
  destruct (calloc_ok w (ncalloc w)), (calloc_ok w (S (ncalloc w)));
    cbn [screen heap render]; try done; by rewrite lookup_insert_eq.
Qed.

Lemma alloc_world_frame (w : World) (st fl wd ht : Z) (msg : string) (a : positive) :
  a <> brk w -> a <> Pos.succ (brk w) ->
  heap (alloc_world st fl wd ht msg w) !! a = heap w !! a.
Proof.
  intros H1 H2. unfold alloc_world.
  destruct (calloc_ok w (ncalloc w)), (calloc_ok w (S (ncalloc w)));
    cbn [heap]; by rewrite ?lookup_insert_ne.
Qed.

Lemma init_status_decode (w : World) :
  Z.shiftr (joinReturn (init_status w) 0) 8 = init_status w /\
  returnError (joinReturn (init_status w) 0)
  = (if calloc_ok w (ncalloc w) && calloc_ok w (S (ncalloc w)) then 0 else SCREEN_ERROR) /\
  returnData (joinReturn (init_status w) 0) = 0.
Proof.
  unfold init_status.
  destruct (calloc_ok w (ncalloc w) && calloc_ok w (S (ncalloc w))); done.
Qed.

(** C5: on a non-null screen pointer [initScreen] returns, having asked
    for a zeroed pixel array of [width * height] entries and a zeroed glyph
    array of [(width/2 + 1) * (height/3 + 1)] entries; the status byte of
    the returned value is [SCREEN_SUCCESS] when both allocations succeed and
    [SCREEN_ERROR] when either fails, and [returnError] decodes it to 0 in
    the first case only. *)
Theorem initScreen_reports (w : World) (fl wd ht : Z)
    (Hwd : is_u8 wd) (Hht : is_u8 ht) :
  exists r w',
    initScreen SCR_VALID fl wd ht w = Some (r, w') /\
    status (screen w') = SCREEN_READY /\ flags (screen w') = fl /\
    width (screen w') = wd /\ height (screen w') = ht /\
    (if calloc_ok w (ncalloc w)
     then pixels w' = Some (replicate (Z.to_nat (wd * ht)) false)
     else data (screen w') = None) /\
    (if calloc_ok w (S (ncalloc w))
     then glyphs w' = Some (replicate (Z.to_nat ((wd / 2 + 1) * (ht / 3 + 1))) 0)
     else render (screen w') = None) /\
    Z.shiftr r 8 = (if calloc_ok w (ncalloc w) && calloc_ok w (S (ncalloc w))
                    then SCREEN_SUCCESS else SCREEN_ERROR) /\
    returnError r = (if calloc_ok w (ncalloc w) && calloc_ok w (S (ncalloc w))
                     then 0 else SCREEN_ERROR) /\
    returnData r = 0.
Proof.
  exists (joinReturn (init_status w) 0), (init_world fl wd ht w).
  split; [apply initScreen_valid|].
  destruct (alloc_world_screen w SCREEN_READY fl wd ht init_msg) as (? & ? & ? & ?).
  destruct (init_status_decode w) as (? & ? & ?).
  repeat split; try done.
  - apply alloc_world_pixels.
  - apply alloc_world_glyphs.
Qed.

(** C8: on a screen whose status is not [SCREEN_READY], [getScreenPixel]
    and [setScreenPixel] run [initScreen(scr, 0, 20, 20)], log a message and
    return [false], respectively a value whose status byte is
    [SCREEN_ERROR]; the state they leave does not depend on the coordinate or
    the value, the fresh pixel array is all [false], and no other block of
    the heap is touched. *)
Theorem not_ready_reinitialises (w : World) (x y : Z) (v : bool)
    (Hnot : status (screen w) <> SCREEN_READY) :
  exists r0 w0,
    initScreen SCR_VALID 0 20 20 w = Some (r0, w0) /\
    getScreenPixel SCR_VALID x y w
    = Some (false, logged ("[E] Screen not initialized!" ++ endl) w0) /\
    setScreenPixel SCR_VALID x y v w
    = Some (joinReturn SCREEN_ERROR 0,
            logged ("[E] Screen not initialized! setPixel" ++ endl) w0) /\
    Z.shiftr (joinReturn SCREEN_ERROR 0) 8 = SCREEN_ERROR /\
    returnError (joinReturn SCREEN_ERROR 0) = SCREEN_ERROR /\
    status (screen w0) = SCREEN_READY /\ flags (screen w0) = 0 /\
    width (screen w0) = 20 /\ height (screen w0) = 20 /\
    (if calloc_ok w (ncalloc w)
     then pixels w0 = Some (replicate 400 false)
     else data (screen w0) = None) /\
    (forall a, a <> brk w -> a <> Pos.succ (brk w) -> heap w0 !! a = heap w !! a).
Proof.
  exists (joinReturn (init_status w) 0), (init_world 0 20 20 w).
  assert (Hneg : negb (status (screen w) =? SCREEN_READY) = true).
  { apply negb_true_iff, Z.eqb_neq, Hnot. }
  destruct (alloc_world_screen w SCREEN_READY 0 20 20 init_msg) as (? & ? & ? & ?).
  split; [apply initScreen_valid|].
  split.
  { unfold getScreenPixel. unfold bind at 1, get_screen. rewrite Hneg.
    unfold bind. rewrite initScreen_valid. reflexivity. }
  split.
  { unfold setScreenPixel. unfold bind at 1, get_screen. rewrite Hneg.
    unfold bind. rewrite initScreen_valid. reflexivity. }
  repeat split; try done.
  - apply (alloc_world_pixels w SCREEN_READY 0 20 20).
  - intros a. apply alloc_world_frame.
Qed.

Lemma resizeScreen_valid (w : World) (wd ht : Z) (d r : positive) (l : list bool)
    (g : list Z) :
  data (screen w) = Some d -> render (screen w) = Some r ->
  heap w !! d = Some (BoolBlock l) -> heap w !! r = Some (ByteBlock g) ->
  resizeScreen SCR_VALID wd ht w
  = Some (joinReturn (init_status w) 0,
          alloc_world (status (screen w)) (flags (screen w)) wd ht resize_msg
                      (with_heap (delete r (delete d (heap w))) w)).
Proof.
  intros Hd Hr Hhd Hhr.
  assert (Hne : d <> r) by (intros ->; congruence).
  unfold resizeScreen. unfold bind at 1, get_screen.
  rewrite Hd, Hr. rewrite bool_decide_eq_false_2 by done.
  unfold bind at 1. unfold bind at 1. unfold free at 1. rewrite Hhd.
  unfold bind at 1. unfold free at 1. cbn [heap with_heap].
  rewrite lookup_delete_ne by done. rewrite Hhr.
  unfold init_status, alloc_world, resize_msg, bind, modify_screen, get_screen,
    calloc_bool, calloc_u8, calloc, eprint, logged, ret, with_screen, with_heap.
  cbn [screen heap brk ncalloc calloc_ok stderr].
  destruct (calloc_ok w (ncalloc w)); cbn [screen heap brk ncalloc calloc_ok stderr];
    destruct (calloc_ok w (S (ncalloc w))); reflexivity.
Qed.

Lemma length_replicate_Z {A} (n : Z) (x : A) :
  0 <= n -> Z.of_nat (length (replicate (Z.to_nat n) x)) = n.
Proof. intros. rewrite length_replicate. lia. Qed.

(** While both arrays are live: [resizeScreen] on a ready screen that
    satisfies the data-model invariant returns; it reports success exactly
    when both allocations succeed, and then the dimensions are the new ones,
    the two old blocks are no longer live, every other block is as before,
    every read gives [false], and reads and writes behave against the new
    dimensions as on a freshly initialised screen. *)
Theorem resizeScreen_clears (w : World) (w2 h2 : Z)
    (Hready : ready w) (Halloc : allocated w) (Hfresh : heap_fresh w)
    (Hw2 : is_u8 w2) (Hh2 : is_u8 h2) :
  exists r w',
    resizeScreen SCR_VALID w2 h2 w = Some (r, w') /\
    (returnError r = 0 <->
     calloc_ok w (ncalloc w) && calloc_ok w (S (ncalloc w)) = true) /\
    (returnError r = 0 ->
     ready w' /\ allocated w' /\
     width (screen w') = w2 /\ height (screen w') = h2 /\
     flags (screen w') = flags (screen w) /\
     pixels w' = Some (replicate (Z.to_nat (w2 * h2)) false) /\
     glyphs w' = Some (replicate (Z.to_nat ((w2 / 2 + 1) * (h2 / 3 + 1))) 0) /\
     (forall a, data (screen w) = Some a \/ render (screen w) = Some a ->
                heap w' !! a = None) /\
     (forall a, data (screen w) <> Some a -> render (screen w) <> Some a ->
                data (screen w') <> Some a -> render (screen w') <> Some a ->
                heap w' !! a = heap w !! a) /\
     (forall x y, 0 <= x -> 0 <= y ->
                  getScreenPixel SCR_VALID x y w' = Some (false, w')) /\
     (forall x y v, 0 <= x < w2 -> 0 <= y < h2 ->
        exists w1,
          setScreenPixel SCR_VALID x y v w' = Some (joinReturn SCREEN_SUCCESS 0, w1) /\
          getScreenPixel SCR_VALID x y w1 = Some (v, w1)) /\
     (forall x y v, w2 <= x \/ h2 <= y ->
        setScreenPixel SCR_VALID x y v w' = Some (0, w'))).
Proof.
  destruct Halloc as (_ & _ & (l & Hp & _) & (g & Hg & _)).
  destruct (pixels_Some w l Hp) as (d & Hd & Hhd).
  destruct (glyphs_Some w g Hg) as (r & Hr & Hhr).
  assert (Hne : d <> r) by (intros ->; congruence).
  eexists _, _. split; [by eapply resizeScreen_valid|].
  set (w0 := with_heap (delete r (delete d (heap w))) w).
  set (w' := alloc_world _ _ _ _ _ w0).
  destruct (init_status_decode w) as (_ & Herr & _).
  split.
  { rewrite Herr.
    destruct (calloc_ok w (ncalloc w) && calloc_ok w (S (ncalloc w))); [done|].
    split; [|done]. unfold SCREEN_ERROR. lia. }
  intros Hok. rewrite Herr in Hok.
  destruct (calloc_ok w (ncalloc w)) eqn:E1; [|discriminate Hok].
  destruct (calloc_ok w (S (ncalloc w))) eqn:E2; [|discriminate Hok].
  destruct (alloc_world_screen w0 (status (screen w)) (flags (screen w)) w2 h2 resize_msg)
    as (Hst & Hfl & Hwd & Hht).
  pose proof (alloc_world_pixels w0 (status (screen w)) (flags (screen w)) w2 h2 resize_msg)
    as Hpx.
  pose proof (alloc_world_glyphs w0 (status (screen w)) (flags (screen w)) w2 h2 resize_msg)
    as Hgl.
  cbn [w0 with_heap calloc_ok ncalloc] in Hpx, Hgl. rewrite E1 in Hpx. rewrite E2 in Hgl.
  fold w0 in Hpx, Hgl. fold w' in Hst, Hfl, Hwd, Hht, Hpx, Hgl.
  assert (Hrdy : ready w') by (unfold ready; by rewrite Hst).
  assert (Hlen : Z.of_nat (length (replicate (Z.to_nat (w2 * h2)) false))
                 = width (screen w') * height (screen w')).
  { rewrite Hwd, Hht. apply length_replicate_Z. unfold is_u8 in *. nia. }
  assert (Hdlt : d <> brk w /\ d <> Pos.succ (brk w)).
  { split; intros ->; rewrite Hfresh in Hhd by lia; discriminate. }
  assert (Hrlt : r <> brk w /\ r <> Pos.succ (brk w)).
  { split; intros ->; rewrite Hfresh in Hhr by lia; discriminate. }
  assert (Hheap : heap w' = <[Pos.succ (brk w) :=
                     ByteBlock (replicate (Z.to_nat ((w2 / 2 + 1) * (h2 / 3 + 1))) 0)]>
                    (<[brk w := BoolBlock (replicate (Z.to_nat (w2 * h2)) false)]>
                       (delete r (delete d (heap w))))).
  { unfold w', alloc_world. cbn [w0 with_heap calloc_ok ncalloc heap brk].
    by rewrite E1, E2. }
  assert (Hnew : data (screen w') = Some (brk w) /\
                 render (screen w') = Some (Pos.succ (brk w))).
  { unfold w', alloc_world. cbn [w0 with_heap calloc_ok ncalloc heap brk].
    by rewrite E1, E2. }
  split; [done|]. split.
  { unfold allocated, has_pixels, has_glyphs. rewrite Hwd, Hht. split; [done|]. split; [done|]. split.
    - eexists. split; [exact Hpx|]. rewrite Hlen. by rewrite Hwd, Hht.
    - eexists. split; [exact Hgl|]. unfold glyphWidth, glyphHeight. rewrite Hwd, Hht.
      apply length_replicate_Z. unfold is_u8 in *.
      pose proof (Z.div_pos w2 2). pose proof (Z.div_pos h2 3). nia. }
  do 5 (split; [done|]).
  split.
  { intros a [Ha|Ha]; rewrite Hheap.
    - rewrite Hd in Ha. injection Ha as <-.
      rewrite !lookup_insert_ne by (intros E; symmetry in E; revert E; tauto).
      rewrite lookup_delete_ne by done. apply lookup_delete_eq.
    - rewrite Hr in Ha. injection Ha as <-.
      rewrite !lookup_insert_ne by (intros E; symmetry in E; revert E; tauto).
      apply lookup_delete_eq. }
  split.
  { intros a Ha1 Ha2 Ha3 Ha4. destruct Hnew as [Hn1 Hn2].
    rewrite Hheap. rewrite Hd in Ha1. rewrite Hr in Ha2.
    rewrite Hn1 in Ha3. rewrite Hn2 in Ha4.
    rewrite !lookup_insert_ne by congruence.
    rewrite !lookup_delete_ne by congruence. done. }
  split.
  { intros x y Hx Hy.
    rewrite (getScreenPixel_ready w' _ x y Hrdy Hpx Hlen Hx Hy).
    by rewrite pixel_at_cleared. }
  split.
  { intros x y v Hx Hy. apply (set_then_get_at w' _ x y v Hrdy Hpx Hlen).
    - by rewrite Hwd.
    - by rewrite Hht. }
  intros x y v Hout. apply setScreenPixel_outside; [done|]. by rewrite Hwd, Hht.
Qed.

(** ** Rendering *)

Lemma u8_nonneg (z : Z) : 0 <= u8 z.
Proof. unfold u8. apply Z.mod_pos_bound. lia. Qed.

Lemma u8_small (z : Z) : 0 <= z < 256 -> u8 z = z.
Proof. apply Z.mod_small. Qed.

Lemma with_heap_id (w : World) : with_heap (heap w) w = w.
Proof. by destruct w. Qed.

Lemma with_glyphs_eq (v : World) (r : positive) (g : list Z) :
  render (screen v) = Some r ->
  with_glyphs g v = with_heap (<[r := ByteBlock g]> (heap v)) v.
Proof. unfold with_glyphs. by intros ->. Qed.

Lemma screen_with_glyphs (w : World) (g : list Z) :
  screen (with_glyphs g w) = screen w.
Proof. unfold with_glyphs. by destruct (render (screen w)). Qed.

Lemma glyph_dims (s : Screen) :
  is_u8 (width s) -> is_u8 (height s) ->
  1 <= glyphWidth s <= 128 /\ 1 <= glyphHeight s <= 86.
Proof.
  unfold is_u8, glyphWidth, glyphHeight. intros H1 H2.
  pose proof (Z.div_mod (width s) 2). pose proof (Z.mod_pos_bound (width s) 2).
  pose proof (Z.div_mod (height s) 3). pose proof (Z.mod_pos_bound (height s) 3).
  lia.
Qed.

Lemma cell_index (gw x y : Z) :
  0 <= x < gw -> 0 <= y ->
  (y * gw + x) mod gw = x /\ (y * gw + x) / gw = y.
Proof.
  intros Hx Hy. split.
  - rewrite Z.add_comm, Z.mod_add by lia. apply Z.mod_small; lia.
  - rewrite Z.add_comm, Z.div_add by lia. rewrite Z.div_small by lia. lia.
Qed.

Lemma length_fill (h : Z -> Z) (n : nat) (from : Z) (g : list Z) :
  length (fill h from n g) = length g.
Proof.
  revert from g. induction n as [|n IH]; intros from g; [done|].
  cbn [fill]. by rewrite IH, length_insert.
Qed.

Lemma fill_app (h : Z -> Z) (a b : nat) (from : Z) (g : list Z) :
  fill h from (a + b) g = fill h (from + Z.of_nat a) b (fill h from a g).
Proof.
  revert from g. induction a as [|a IH]; intros from g.
  - cbn [fill Nat.add]. f_equal. lia.
  - cbn [fill Nat.add]. rewrite IH. f_equal. lia.
Qed.

Lemma fill_lookup (h : Z -> Z) (n : nat) (from : Z) (g : list Z) (i : nat) :
  0 <= from ->
  fill h from n g !! i
  = if decide (Z.to_nat from <= i < Z.to_nat from + n /\ i < length g)%nat
    then Some (h (Z.of_nat i)) else g !! i.
Proof.
  revert from g. induction n as [|n IH]; intros from g Hfrom.
  - cbn [fill]. case_decide; [lia|done].
  - cbn [fill]. rewrite IH by lia. rewrite length_insert.
    destruct (decide (i = Z.to_nat from)) as [->|Hne].
    + repeat case_decide; try lia.
      * rewrite list_lookup_insert_eq by lia. by rewrite Z2Nat.id.
      * by rewrite list_insert_ge by lia.
    + rewrite list_lookup_insert_ne by done.
      repeat case_decide; try lia; done.
Qed.

Lemma fill_all (h : Z -> Z) (g : list Z) :
  fill h 0 (length g) g = map (fun i => h (Z.of_nat i)) (seq 0 (length g)).
Proof.
  apply list_eq. intros i. rewrite fill_lookup by lia.
  rewrite list_lookup_fmap.
  destruct (decide (i < length g)%nat) as [Hi|Hi].
  - rewrite lookup_seq_lt by done. case_decide; [done|lia].
  - rewrite lookup_seq_ge by lia. case_decide; [lia|].
    apply lookup_ge_None_2. lia.
Qed.

Lemma cell_value_range (s : Screen) (l : list bool) (i : Z) :
  0 <= cell_value s l i <= 63.
Proof.
  unfold cell_value.
  pose proof (boolsToInt_range
                (block_pixels_u8 s l (i mod glyphWidth s) (i / glyphWidth s)) eq_refl).
  lia.
Qed.

Lemma length_render_cells (s : Screen) (l : list bool) :
  is_u8 (width s) -> is_u8 (height s) ->
  Z.of_nat (length (render_cells s l)) = glyphWidth s * glyphHeight s.
Proof.
  intros Hw Hh. pose proof (glyph_dims s Hw Hh).
  unfold render_cells. rewrite length_map, length_seq. nia.
Qed.

Lemma render_cells_lookup (s : Screen) (l : list bool) (bx by_ : Z) :
  0 <= bx < glyphWidth s -> 0 <= by_ < glyphHeight s ->
  render_cells s l !! Z.to_nat (by_ * glyphWidth s + bx)
  = Some (boolsToInt (block_pixels_u8 s l bx by_)).
Proof.
  intros Hx Hy. unfold render_cells.
  rewrite list_lookup_fmap, lookup_seq_lt by nia.
  cbn [fmap option_fmap option_map Nat.add]. f_equal.
  unfold cell_value. rewrite Z2Nat.id by nia.
  by destruct (cell_index (glyphWidth s) bx by_ ltac:(lia) ltac:(lia)) as [-> ->].
Qed.

Lemma render_cells_range (s : Screen) (l : list bool) (c : Z) :
  In c (render_cells s l) -> 0 <= c <= 63.
Proof.
  unfold render_cells. rewrite in_map_iff. intros (i & <- & _).
  apply cell_value_range.
Qed.

Lemma render_cells_ext (s s' : Screen) (l : list bool) :
  width s = width s' -> height s = height s' ->
  render_cells s l = render_cells s' l.
Proof.
  intros Hw Hh.
  unfold render_cells, cell_value, block_pixels_u8, pixel_at, glyphWidth, glyphHeight.
  by rewrite Hw, Hh.
Qed.

Section Render.
Variable w : World.
Variables (l : list bool) (g0 : list Z).
Hypothesis Hready : ready w.
Hypothesis Hwidth : is_u8 (width (screen w)).
Hypothesis Hheight : is_u8 (height (screen w)).
Hypothesis Hpix : pixels w = Some l.
Hypothesis Hplen : Z.of_nat (length l) = width (screen w) * height (screen w).
Hypothesis Hgly : glyphs w = Some g0.
Hypothesis Hglen :
  Z.of_nat (length g0) = glyphWidth (screen w) * glyphHeight (screen w).

Local Abbreviation gw := (glyphWidth (screen w)).
Local Abbreviation gh := (glyphHeight (screen w)).
Local Abbreviation f := (cell_value (screen w) l).

Lemma glyphs_with_glyphs (g : list Z) : glyphs (with_glyphs g w) = Some g.
Proof using Hgly.
  destruct (glyphs_Some w g0 Hgly) as (r & Hr & Hh).
  unfold with_glyphs, glyphs. rewrite Hr. cbn [screen with_heap heap].
  by rewrite Hr, lookup_insert_eq.
Qed.

Lemma pixels_with_glyphs (g : list Z) : pixels (with_glyphs g w) = Some l.
Proof using Hgly Hpix.
  destruct (glyphs_Some w g0 Hgly) as (r & Hr & Hh).
  destruct (pixels_Some w l Hpix) as (d & Hd & Hhd).
  assert (r <> d) by (intros ->; congruence).
  unfold with_glyphs, pixels. rewrite Hr. cbn [screen with_heap heap].
  by rewrite Hd, lookup_insert_ne, Hhd.
Qed.

Lemma with_glyphs_twice (g g' : list Z) :
  with_glyphs g' (with_glyphs g w) = with_glyphs g' w.
Proof using Hgly.
  destruct (glyphs_Some w g0 Hgly) as (r & Hr & Hh).
  unfold with_glyphs. rewrite Hr. cbn [screen with_heap heap]. rewrite Hr.
  unfold with_heap. cbn [screen heap brk ncalloc calloc_ok stderr].
  by rewrite insert_insert_eq.
Qed.

Lemma with_glyphs_same : with_glyphs g0 w = w.
Proof using Hgly.
  destruct (glyphs_Some w g0 Hgly) as (r & Hr & Hh).
  unfold with_glyphs. rewrite Hr. rewrite insert_id by done. apply with_heap_id.
Qed.

Lemma getScreenPixel_with_glyphs (g : list Z) (x y : Z) :
  0 <= x -> 0 <= y ->
  getScreenPixel SCR_VALID x y (with_glyphs g w)
  = Some (pixel_at (screen w) l x y, with_glyphs g w).
Proof using Hready Hpix Hplen Hgly.
  intros Hx Hy.
  rewrite (getScreenPixel_ready _ l x y); try done.
  - by rewrite screen_with_glyphs.
  - unfold ready. by rewrite screen_with_glyphs.
  - apply pixels_with_glyphs.
  - by rewrite screen_with_glyphs.
Qed.

Lemma renderScreen_body_spec (g : list Z) (x y : Z) :
  Z.of_nat (length g) = gw * gh ->
  0 <= x < gw -> 0 <= y < gh ->
  renderScreen_body SCR_VALID gw x y (with_glyphs g w)
  = Some (tt, with_glyphs (<[Z.to_nat (y * gw + x) := f (y * gw + x)]> g) w).
Proof using All.
  intros Hlen Hx Hy. pose proof (glyph_dims _ Hwidth Hheight) as [Hgw Hgh].
  destruct (glyphs_Some _ _ (glyphs_with_glyphs g)) as (r & Hr & Hh).
  unfold renderScreen_body.
  do 6 (erewrite bind_Some;
        [|apply getScreenPixel_with_glyphs; apply u8_nonneg]).
  unfold bind, get_screen, store_u8. rewrite Hr, Hh.
  assert (Hi : 0 <= y * gw + x < gw * gh) by nia.
  assert (Hu : u16 (y * gw + x) = y * gw + x).
  { unfold u16. apply Z.mod_small. nia. }
  rewrite Hu.
  destruct (Z.ltb_spec (y * gw + x) 0); [lia|].
  destruct (Z.leb_spec (Z.of_nat (length g)) (y * gw + x)); [lia|].
  cbn [orb]. f_equal. f_equal.
  rewrite <- (with_glyphs_eq _ _ _ Hr), with_glyphs_twice. f_equal. f_equal.
  unfold cell_value.
  destruct (cell_index gw x y ltac:(lia) ltac:(lia)) as [-> ->].
  apply u8_small.
  pose proof (boolsToInt_range (block_pixels_u8 (screen w) l x y) eq_refl).
  unfold block_pixels_u8 in *. lia.
Qed.

Lemma render_row (y : Z) (n : nat) (x0 : Z) (g : list Z) :
  Z.of_nat (length g) = gw * gh ->
  0 <= y < gh -> 0 <= x0 -> x0 + Z.of_nat n <= gw ->
  for_from x0 n (fun x => renderScreen_body SCR_VALID gw x y) (with_glyphs g w)
  = Some (tt, with_glyphs (fill f (y * gw + x0) n g) w).
Proof using All.
  revert x0 g. induction n as [|n IH]; intros x0 g Hlen Hy Hx0 Hn; [done|].
  cbn [for_from fill].
  erewrite bind_Some; [|apply renderScreen_body_spec; lia].
  rewrite IH; [|by rewrite length_insert|lia..].
  by replace (y * gw + (x0 + 1)) with (y * gw + x0 + 1) by lia.
Qed.

Lemma render_rows (m : nat) (y0 : Z) (g : list Z) :
  Z.of_nat (length g) = gw * gh ->
  0 <= y0 -> y0 + Z.of_nat m <= gh ->
  for_from y0 m
    (fun y => for_lt gw (fun x => renderScreen_body SCR_VALID gw x y))
    (with_glyphs g w)
  = Some (tt, with_glyphs (fill f (y0 * gw) (m * Z.to_nat gw) g) w).
Proof using All.
  pose proof (glyph_dims _ Hwidth Hheight) as [Hgw Hgh].
  revert y0 g. induction m as [|m IH]; intros y0 g Hlen Hy0 Hm; [done|].
  cbn [for_from]. unfold for_lt at 1.
  erewrite bind_Some; [|apply render_row; lia].
  rewrite IH; [|by rewrite length_fill|lia..].
  cbn [Nat.mul]. rewrite fill_app.
  replace ((y0 + 1) * gw) with (y0 * gw + Z.of_nat (Z.to_nat gw)) by lia.
  by rewrite Z.add_0_r.
Qed.

(** [renderScreen] returns, and rewrites the glyph array to
    [render_cells] of the pixel array, whatever the array held. *)
Lemma renderScreen_spec :
  renderScreen SCR_VALID w = Some (tt, with_glyphs (render_cells (screen w) l) w).
Proof using All.
  pose proof (glyph_dims _ Hwidth Hheight) as [Hgw Hgh].
  unfold renderScreen, bind at 1, get_screen.
  fold (glyphWidth (screen w)) (glyphHeight (screen w)).
  rewrite !u8_small by lia. unfold for_lt at 1.
  transitivity
    (for_from 0 (Z.to_nat gh)
       (fun y => for_lt gw (fun x => renderScreen_body SCR_VALID gw x y))
       (with_glyphs g0 w)); [by rewrite with_glyphs_same|].
  rewrite render_rows; [|done|lia..].
  do 3 f_equal. unfold render_cells.
  replace (Z.to_nat gh * Z.to_nat gw)%nat with (length g0) by nia.
  replace (Z.to_nat (gw * gh)) with (length g0) by lia.
  apply fill_all.
Qed.
End Render.

Lemma allocated_with_glyphs (w : World) (l : list bool) (g0 g : list Z) :
  allocated w -> pixels w = Some l -> glyphs w = Some g0 ->
  Z.of_nat (length g) = glyphWidth (screen w) * glyphHeight (screen w) ->
  allocated (with_glyphs g w).
Proof.
  intros (Hw & Hh & (l' & Hp & Hpl) & _) Hl Hg Hlen.
  assert (l' = l) as -> by congruence.
  unfold allocated, has_pixels, has_glyphs. rewrite screen_with_glyphs.
  split; [done|]. split; [done|]. split.
  - exists l. split; [by eapply pixels_with_glyphs|done].
  - exists g. split; [by eapply glyphs_with_glyphs|done].
Qed.

(** The whole effect of [renderScreen] on a ready screen that satisfies
    the data-model invariant. *)
Lemma renderScreen_allocated (w : World) :
  ready w -> allocated w ->
  exists l g0,
    pixels w = Some l /\ glyphs w = Some g0 /\
    Z.of_nat (length l) = width (screen w) * height (screen w) /\
    Z.of_nat (length g0) = glyphWidth (screen w) * glyphHeight (screen w) /\
    renderScreen SCR_VALID w
    = Some (tt, with_glyphs (render_cells (screen w) l) w).
Proof.
  intros Hr (Hw & Hh & (l & Hp & Hpl) & (g0 & Hg & Hgl)).
  exists l, g0. repeat split; try done. by eapply renderScreen_spec.
Qed.

(** Below height 255 no coordinate wraps: every cell is the pack of the six
    pixels at [(bx*2 + {0,1}, by*3 + {0,1,2})], and the glyph array has
    [(width/2 + 1) * (height/3 + 1)] cells. *)
Lemma renderScreen_cells_below_255 (w : World) :
  ready w -> allocated w -> height (screen w) < 255 ->
  exists l g w',
    pixels w = Some l /\
    renderScreen SCR_VALID w = Some (tt, w') /\ glyphs w' = Some g /\
    Z.of_nat (length g) = (width (screen w) / 2 + 1) * (height (screen w) / 3 + 1) /\
    forall bx by_,
      0 <= bx < glyphWidth (screen w) -> 0 <= by_ < glyphHeight (screen w) ->
      g !! Z.to_nat (by_ * glyphWidth (screen w) + bx)
      = Some (boolsToInt (block_pixels (screen w) l bx by_)).
Proof.
  intros Hr Ha Hlt.
  destruct (renderScreen_allocated w Hr Ha) as (l & g0 & Hp & Hg & Hpl & Hgl & Hrun).
  destruct Ha as (Hw & Hh & _).
  exists l, (render_cells (screen w) l), (with_glyphs (render_cells (screen w) l) w).
  split; [done|]. split; [done|]. split; [by eapply glyphs_with_glyphs|].
  split; [by apply length_render_cells|].
  intros bx by_ Hbx Hby.
  rewrite (render_cells_lookup (screen w) l bx by_ Hbx Hby).
  pose proof (glyph_dims (screen w) Hw Hh) as [Hgw _].
  assert (Hgh : glyphHeight (screen w) <= 85).
  { unfold glyphHeight.
    pose proof (Z.div_mod (height (screen w)) 3).
    pose proof (Z.mod_pos_bound (height (screen w)) 3). lia. }
  unfold block_pixels_u8, block_pixels. rewrite !u8_small by lia. done.
Qed.

(** C7: on a ready screen that satisfies the data-model invariant
    [renderScreen] returns and changes the glyph array only: the Screen
    struct, the pixel array, every other heap block, the allocator and the
    log are as before; a second render changes nothing, and two screens of
    the same dimensions and pixel contents render to the same glyphs. *)
Theorem renderScreen_frame (w : World)
    (Hready : ready w) (Halloc : allocated w) :
  exists w',
    renderScreen SCR_VALID w = Some (tt, w') /\
    screen w' = screen w /\ pixels w' = pixels w /\
    brk w' = brk w /\ ncalloc w' = ncalloc w /\ calloc_ok w' = calloc_ok w /\
    stderr w' = stderr w /\
    (forall a, render (screen w) <> Some a -> heap w' !! a = heap w !! a) /\
    renderScreen SCR_VALID w' = Some (tt, w') /\
    (forall v, ready v -> allocated v ->
               width (screen v) = width (screen w) ->
               height (screen v) = height (screen w) ->
               pixels v = pixels w ->
               exists v', renderScreen SCR_VALID v = Some (tt, v') /\
                          glyphs v' = glyphs w').
Proof.
  destruct (renderScreen_allocated w Hready Halloc)
    as (l & g0 & Hp & Hg & Hpl & Hgl & Hrun).
  destruct (glyphs_Some w g0 Hg) as (r & Hr & Hhr).
  set (cells := render_cells (screen w) l) in *.
  assert (Hclen : Z.of_nat (length cells)
                  = glyphWidth (screen w) * glyphHeight (screen w)).
  { destruct Halloc as (Hw & Hh & _). by apply length_render_cells. }
  exists (with_glyphs cells w).
  split; [done|]. split; [apply screen_with_glyphs|].
  split; [rewrite Hp; by eapply pixels_with_glyphs|].
  rewrite (with_glyphs_eq w r cells Hr). do 4 (split; [done|]).
  rewrite <- (with_glyphs_eq w r cells Hr).
  split.
  { intros a Ha. rewrite (with_glyphs_eq w r cells Hr). cbn [heap with_heap].
    apply lookup_insert_ne. congruence. }
  split.
  { assert (Hr' : ready (with_glyphs cells w))
      by (unfold ready; by rewrite screen_with_glyphs).
    pose proof (allocated_with_glyphs w l g0 cells Halloc Hp Hg Hclen) as Ha'.
    destruct (renderScreen_allocated _ Hr' Ha') as (l' & g' & Hp' & _ & _ & _ & Hrun').
    rewrite (pixels_with_glyphs w l g0 Hp Hg) in Hp'. injection Hp' as <-.
    rewrite Hrun'. rewrite screen_with_glyphs. fold cells.
    by rewrite (with_glyphs_twice w g0 Hg). }
  intros v Hrv Hav Hwv Hhv Hpv.
  destruct (renderScreen_allocated v Hrv Hav) as (lv & gv & Hp' & Hg' & _ & _ & Hrun').
  assert (lv = l) as -> by congruence.
  eexists. split; [exact Hrun'|].
  rewrite (glyphs_with_glyphs v gv Hg'), (glyphs_with_glyphs w g0 Hg).
  f_equal. by apply render_cells_ext.
Qed.

Lemma length_char_map : length char_map = 64%nat.
Proof. reflexivity. Qed.


(** ** Concrete runs *)

Lemma demo_world_init :
  initScreen SCR_VALID 0 2 3 (boot always)
  = Some (joinReturn SCREEN_SUCCESS 0, demo_world).
Proof. vm_compute. reflexivity. Qed.

Lemma demo_ready : ready demo_world.
Proof. reflexivity. Qed.

Lemma demo_allocated : allocated demo_world.
Proof.
  unfold allocated, has_pixels, has_glyphs. cbn [demo_world screen width height].
  split; [unfold is_u8; lia|]. split; [unfold is_u8; lia|]. split.
  - exists (replicate 6 false). split; reflexivity.
  - exists (replicate 4 0). split; reflexivity.
Qed.

Lemma demo_fresh : heap_fresh demo_world.
Proof.
  intros a Ha. cbn [demo_world brk heap] in *.
  rewrite !lookup_insert_ne by lia. apply lookup_empty.
Qed.

Lemma full_world_run :
  exec (setScreenPixel SCR_VALID 0 0 true ;; setScreenPixel SCR_VALID 1 0 true ;;
        setScreenPixel SCR_VALID 0 1 true ;; setScreenPixel SCR_VALID 1 1 true ;;
        setScreenPixel SCR_VALID 0 2 true ;; setScreenPixel SCR_VALID 1 2 true)
       demo_world
  = Some full_world.
Proof. vm_compute. reflexivity. Qed.

(** The concrete case of the spec: a 2x3 buffer with every pixel set
    renders to a 2x2 grid with 63 at cell (0,0) and 0 at the padding cells. *)
Example render_full_2x3 :
  glyphWidth (screen full_world) = 2 /\ glyphHeight (screen full_world) = 2 /\
  rendered full_world = Some [63; 0; 0; 0].
Proof. repeat split; vm_compute; reflexivity. Qed.

Lemma tall_world_run :
  exec (initScreen SCR_VALID 0 1 255 ;; setScreenPixel SCR_VALID 0 0 true)
       (boot always)
  = Some tall_world.
Proof. vm_compute. reflexivity. Qed.

Lemma tall_allocated : ready tall_world /\ allocated tall_world.
Proof.
  split; [reflexivity|]. unfold allocated, has_pixels, has_glyphs.
  split; [unfold is_u8; cbn; lia|]. split; [unfold is_u8; cbn; lia|]. split.
  - eexists. split; [reflexivity|]. vm_compute. reflexivity.
  - eexists. split; [reflexivity|]. vm_compute. reflexivity.
Qed.

(** C1 (fails at height 255): on the 1x255 screen with pixel (0,0) set,
    [renderScreen] has 86 block rows; the six pixels of block (0, 85) lie at
    rows 255, 256 and 257, outside the buffer, and pack to 0, yet the cell
    stored at index 85 is 8: the row coordinates 256 and 257 are converted
    to [uint8_t] on the call of [getScreenPixel] and read rows 0 and 1.
    Below height 255 the claim holds, see [renderScreen_cells_below_255]. *)
Theorem renderScreen_wraps_at_height_255 :
  exec (initScreen SCR_VALID 0 1 255 ;; setScreenPixel SCR_VALID 0 0 true)
       (boot always) = Some tall_world /\
  ready tall_world /\ allocated tall_world /\
  width (screen tall_world) = 1 /\ height (screen tall_world) = 255 /\
  glyphWidth (screen tall_world) = 1 /\ glyphHeight (screen tall_world) = 86 /\
  block_of tall_world 0 85 = Some (replicate 6 false) /\
  boolsToInt (replicate 6 false) = 0 /\
  getScreenPixel SCR_VALID (0 * 2 + 0) (85 * 3 + 1) tall_world
  = Some (false, tall_world) /\
  getScreenPixel SCR_VALID (u8 (0 * 2 + 0)) (u8 (85 * 3 + 1)) tall_world
  = Some (true, tall_world) /\
  rendered_cell tall_world 85 = Some 8.
Proof.
  destruct tall_allocated as [Hr Ha].
  split; [exact tall_world_run|]. split; [exact Hr|]. split; [exact Ha|].
  repeat split; vm_compute; reflexivity.
Qed.

(** ** The theorems at concrete inputs *)

Lemma set_then_get_witness :
  exists r w1,
    setScreenPixel SCR_VALID 1 2 true demo_world = Some (r, w1) /\
    getScreenPixel SCR_VALID 1 2 w1 = Some (true, w1).
Proof.
  destruct (set_then_get demo_world 1 2 true demo_ready
              (proj1 (proj2 (proj2 demo_allocated)))) as (r & w1 & H1 & _ & H2);
    [cbn; lia..|].
  exists r, w1. split; [exact H1|exact H2].
Defined.

Lemma out_of_range_silent_witness :
  getScreenPixel SCR_VALID 2 0 demo_world = Some (false, demo_world) /\
  exists r, setScreenPixel SCR_VALID 2 0 true demo_world = Some (r, demo_world) /\
            returnError r = 0.
Proof.
  apply (out_of_range_silent demo_world 2 0 true demo_ready).
  left. cbn. lia.
Defined.

Lemma initScreen_reports_witness :
  exists r w', initScreen SCR_VALID 0 2 3 (boot always) = Some (r, w') /\
               returnError r = 0.
Proof.
  assert (H2 : is_u8 2) by (unfold is_u8; lia).
  assert (H3 : is_u8 3) by (unfold is_u8; lia).
  destruct (initScreen_reports (boot always) 0 2 3 H2 H3)
    as (r & w' & Hrun & _ & _ & _ & _ & _ & _ & _ & Herr & _).
  exists r, w'. split; [exact Hrun|exact Herr].
Defined.

Lemma resizeScreen_clears_witness :
  exists r w', resizeScreen SCR_VALID 4 6 demo_world = Some (r, w') /\
               width (screen w') = 4 /\ height (screen w') = 6 /\
               pixels w' = Some (replicate 24 false).
Proof.
  assert (H4 : is_u8 4) by (unfold is_u8; lia).
  assert (H6 : is_u8 6) by (unfold is_u8; lia).
  destruct (resizeScreen_clears demo_world 4 6 demo_ready demo_allocated demo_fresh H4 H6)
    as (r & w' & Hrun & Hiff & Hpost).
  exists r, w'. split; [exact Hrun|].
  destruct (Hpost (proj2 Hiff eq_refl)) as (_ & _ & Hw & Hh & _ & Hp & _).
  split; [exact Hw|]. split; [exact Hh|exact Hp].
Defined.

Lemma full_allocated : ready full_world /\ allocated full_world.
Proof.
  split; [reflexivity|].
  split; [unfold is_u8; cbn; lia|]. split; [unfold is_u8; cbn; lia|]. split.
  - exists (replicate 6 true). split; reflexivity.
  - exists (replicate 4 0). split; reflexivity.
Qed.

Lemma renderScreen_frame_witness :
  exists w', renderScreen SCR_VALID full_world = Some (tt, w') /\
             screen w' = screen full_world /\ pixels w' = pixels full_world /\
             renderScreen SCR_VALID w' = Some (tt, w').
Proof.
  destruct (renderScreen_frame full_world (proj1 full_allocated) (proj2 full_allocated))
    as (w' & Hrun & Hs & Hp & _ & _ & _ & _ & _ & Hagain & _).
  exists w'. split; [exact Hrun|]. split; [exact Hs|]. split; [exact Hp|exact Hagain].
Defined.


Lemma not_ready_reinitialises_witness :
  exists w0,
    getScreenPixel SCR_VALID 5 5 (boot always)
    = Some (false, logged ("[E] Screen not initialized!" ++ endl) w0) /\
    width (screen w0) = 20 /\ height (screen w0) = 20.
Proof.
  assert (Hnot : status (screen (boot always)) <> SCREEN_READY) by discriminate.
  destruct (not_ready_reinitialises (boot always) 5 5 true Hnot)
    as (r0 & w0 & _ & Hget & _ & _ & _ & _ & _ & Hw & Hh & _).
  exists w0. split; [exact Hget|]. split; [exact Hw|exact Hh].
Defined.

(** ** Outside the data-model invariant *)

(** [initScreen] sets the status to [SCREEN_READY] before it allocates, so
    a failed allocation leaves a ready screen without its pixel array. *)
Example half_world_init :
  initScreen SCR_VALID 0 2 3 (boot first_fails)
  = Some (joinReturn SCREEN_ERROR 0, half_world) /\
  ready half_world /\ data (screen half_world) = None.
Proof. repeat split. Qed.

(** On such a screen an in-bounds write goes through [NULL]. *)
Example half_world_write :
  setScreenPixel SCR_VALID 0 0 true half_world = None.
Proof. reflexivity. Qed.

(** [resizeScreen] frees the glyph array only when the pixel array is
    there: after the failed [initScreen] the old glyph block stays live and
    is no longer referenced by the screen. *)
Example half_world_resize :
  exists w',
    resizeScreen SCR_VALID 1 1 half_world = Some (joinReturn SCREEN_SUCCESS 0, w') /\
    render (screen half_world) = Some 1%positive /\
    heap w' !! 1%positive = Some (ByteBlock (replicate 4 0)) /\
    data (screen w') = Some 2%positive /\ render (screen w') = Some 3%positive.
Proof. eexists. repeat split. Qed.

(** A ready screen need not hold its arrays: on the screen left by the
    failed [initScreen] the coordinate (0, 0) is in bounds, and the write
    does not return, so no read-back follows it. *)
Lemma set_then_get_needs_pixels :
  initScreen SCR_VALID 0 2 3 (boot first_fails)
  = Some (joinReturn SCREEN_ERROR 0, half_world) /\
  ready half_world /\
  0 <= 0 < width (screen half_world) /\ 0 <= 0 < height (screen half_world) /\
  ~ (exists r w1,
       setScreenPixel SCR_VALID 0 0 true half_world = Some (r, w1) /\
       getScreenPixel SCR_VALID 0 0 w1 = Some (true, w1)).
Proof.
  split; [vm_compute; reflexivity|]. split; [reflexivity|].
  split; [cbn; lia|]. split; [cbn; lia|].
  intros (r & w1 & Hset & _).
  rewrite half_world_write in Hset. discriminate Hset.
Qed.

(** On the same ready screen [renderScreen] reads through the [NULL] pixel
    array at its first pixel: it does not return, so it neither leaves the
    rest of the state alone nor produces a glyph array twice. *)
Lemma renderScreen_needs_arrays :
  initScreen SCR_VALID 0 2 3 (boot first_fails)
  = Some (joinReturn SCREEN_ERROR 0, half_world) /\
  ready half_world /\
  renderScreen SCR_VALID half_world = None /\
  ~ (exists w',
       renderScreen SCR_VALID half_world = Some (tt, w') /\
       screen w' = screen half_world /\ pixels w' = pixels half_world).
Proof.
  split; [vm_compute; reflexivity|]. split; [reflexivity|].
  assert (Hrun : renderScreen SCR_VALID half_world = None) by (vm_compute; reflexivity).
  split; [exact Hrun|].
  intros (w' & Hr & _). rewrite Hrun in Hr. discriminate Hr.
Qed.

(** C6 (fails after a failed resize): [initScreen(&scr, 0, 2, 3)] succeeds
    (blocks 1 and 2); [resizeScreen(&scr, 4, 6)] frees both, fails on the
    pixel array and gets block 3 for the glyph array; the next
    [resizeScreen(&scr, 1, 1)] succeeds, but as the data pointer is [NULL] it
    skips both calls of [free]: block 3 is still live and the screen no
    longer refers to it.  While both arrays are live the claim holds, see
    [resizeScreen_clears]. *)
Theorem resizeScreen_leaks_after_failed_resize :
  initScreen SCR_VALID 0 2 3 (boot third_fails)
  = Some (joinReturn SCREEN_SUCCESS 0, leak_world1) /\
  ready leak_world1 /\ allocated leak_world1 /\
  resizeScreen SCR_VALID 4 6 leak_world1
  = Some (joinReturn SCREEN_ERROR 0, leak_world2) /\
  ready leak_world2 /\
  data (screen leak_world2) = None /\
  render (screen leak_world2) = Some 3%positive /\
  heap leak_world2 !! 3%positive = Some (ByteBlock (replicate 9 0)) /\
  resizeScreen SCR_VALID 1 1 leak_world2
  = Some (joinReturn SCREEN_SUCCESS 0, leak_world3) /\
  returnError (joinReturn SCREEN_SUCCESS 0) = 0 /\
  width (screen leak_world3) = 1 /\ height (screen leak_world3) = 1 /\
  data (screen leak_world3) = Some 4%positive /\
  render (screen leak_world3) = Some 5%positive /\
  heap leak_world3 !! 3%positive = Some (ByteBlock (replicate 9 0)).
Proof.
  split; [vm_compute; reflexivity|]. split; [reflexivity|]. split.
  { split; [unfold is_u8; cbn; lia|]. split; [unfold is_u8; cbn; lia|]. split.
    - exists (replicate 6 false). split; vm_compute; reflexivity.
    - exists (replicate 4 0). split; vm_compute; reflexivity. }
  repeat split; vm_compute; reflexivity.
Qed.

(** * Further properties *)

(** ** Glyph lookup and return values *)

Lemma NoDup_char_map : NoDup char_map.
Proof. apply (bool_decide_unpack _). vm_compute. exact I. Qed.

(** X1: on a six-element array [boolsToString] stays inside [char_map],
    and two arrays with the same glyph are equal. *)
Theorem boolsToString_injective (a b : list bool)
    (Ha : length a = 6%nat) (Hb : length b = 6%nat) :
  (exists g, boolsToString a = Some g) /\
  (boolsToString a = boolsToString b -> a = b).
Proof.
  pose proof (boolsToInt_range a Ha) as Hra.
  pose proof (boolsToInt_range b Hb) as Hrb.
  assert (Hla : (Z.to_nat (boolsToInt a) < length char_map)%nat)
    by (rewrite length_char_map; lia).
  assert (Hlb : (Z.to_nat (boolsToInt b) < length char_map)%nat)
    by (rewrite length_char_map; lia).
  destruct (lookup_lt_is_Some_2 _ _ Hla) as [ga Hga].
  destruct (lookup_lt_is_Some_2 _ _ Hlb) as [gb Hgb].
  unfold boolsToString. split; [eauto|].
  rewrite Hga, Hgb. intros [= <-].
  assert (E : Z.to_nat (boolsToInt a) = Z.to_nat (boolsToInt b)).
  { eapply NoDup_lookup; [apply NoDup_char_map|done..]. }
  rewrite <- (intToBools_boolsToInt a Ha), <- (intToBools_boolsToInt b Hb).
  f_equal. lia.
Qed.

Lemma boolsToString_injective_witness :
  (exists g, boolsToString [true; true; true; false; true; true] = Some g) /\
  (boolsToString [true; true; true; false; true; true]
   = boolsToString [false; false; false; false; false; false] ->
   [true; true; true; false; true; true]
   = [false; false; false; false; false; false]).
Proof.
  exact (boolsToString_injective
           [true; true; true; false; true; true]
           [false; false; false; false; false; false] eq_refl eq_refl).
Defined.

(** X2: [returnError] of a 16-bit value is 0 exactly when the status byte
    is 0 or [SCREEN_SUCCESS]; otherwise it is the status byte; it is never
    [SCREEN_SUCCESS]. *)
Theorem returnError_zero_iff (v : Z) (Hv : 0 <= v < 65536) :
  (returnError v = 0 <-> Z.shiftr v 8 = 0 \/ Z.shiftr v 8 = SCREEN_SUCCESS) /\
  (returnError v <> 0 -> returnError v = Z.shiftr v 8) /\
  returnError v <> SCREEN_SUCCESS.
Proof.
  unfold returnError. rewrite land_high by lia.
  rewrite Z.shiftr_div_pow2 by lia. change (2 ^ 8) with 256.
  unfold SCREEN_SUCCESS_BIT, SCREEN_SUCCESS. change (Z.shiftl 2 8) with 512.
  pose proof (Z.div_mod v 256 ltac:(lia)). pose proof (Z.mod_pos_bound v 256 ltac:(lia)).
  assert (0 <= v / 256 < 256) by lia.
  destruct (Z.eqb_spec (v / 256 * 256) 512) as [E|E]; unfold u8.
  - change (0 mod 256) with 0. repeat split; try lia.
  - rewrite Z.mod_small by lia. repeat split; try lia.
Qed.

Lemma returnError_zero_iff_witness :
  returnError 7 = 0 /\ returnError 1024 = Z.shiftr 1024 8.
Proof.
  assert (H7 : 0 <= 7 < 65536) by lia.
  assert (H1024 : 0 <= 1024 < 65536) by lia.
  split.
  - apply (proj1 (returnError_zero_iff 7 H7)). left. reflexivity.
  - apply (proj1 (proj2 (returnError_zero_iff 1024 H1024))). discriminate.
Defined.

(** X3: [joinReturn] packs two bytes without loss: the value is
    [s * 256 + d], below 2^16, its high byte is [s], and different pairs
    give different values. *)
Theorem joinReturn_lossless (s d s' d' : Z)
    (Hs : is_u8 s) (Hd : is_u8 d) (Hs' : is_u8 s') (Hd' : is_u8 d') :
  joinReturn s d = s * 256 + d /\
  0 <= joinReturn s d < 65536 /\
  Z.shiftr (joinReturn s d) 8 = s /\
  (joinReturn s d = joinReturn s' d' -> s = s' /\ d = d').
Proof.
  rewrite !joinReturn_eq by done. unfold is_u8 in *.
  split; [done|]. split; [lia|]. split; [|lia].
  rewrite Z.shiftr_div_pow2 by lia. change (2 ^ 8) with 256.
  rewrite Z.add_comm, Z.div_add by lia. rewrite Z.div_small by lia. lia.
Qed.

Lemma joinReturn_lossless_witness :
  joinReturn 4 9 = 1033 /\ Z.shiftr (joinReturn 4 9) 8 = 4.
Proof.
  assert (H4 : is_u8 4) by (unfold is_u8; lia).
  assert (H9 : is_u8 9) by (unfold is_u8; lia).
  destruct (joinReturn_lossless 4 9 4 9 H4 H9 H4 H9) as (H1 & _ & H3 & _).
  split; [exact H1|exact H3].
Defined.

(** X4: on a [NULL] screen pointer the four checked operations only log a
    line; [initScreen] returns 0, which [returnError] reads as no error,
    while [resizeScreen] and [setScreenPixel] return [SCREEN_ERROR];
    [renderScreen], [printScreen] and [destroyScreen] do not check. *)
Theorem null_screen_pointer (w : World) (fl wd ht x y : Z) (v : bool) :
  (exists r, initScreen SCR_NULL fl wd ht w
             = Some (r, logged ("[E] Screen pointer invalid!" ++ endl) w) /\
             returnError r = 0) /\
  (exists r, resizeScreen SCR_NULL wd ht w
             = Some (r, logged ("[E] Screen pointer invalid!" ++ endl) w) /\
             returnError r = SCREEN_ERROR) /\
  (exists r, setScreenPixel SCR_NULL x y v w
             = Some (r, logged ("[E] Screen pointer invalid!" ++ endl) w) /\
             returnError r = SCREEN_ERROR) /\
  getScreenPixel SCR_NULL x y w
  = Some (false, logged ("[E] Screen pointer invalid!" ++ endl) w) /\
  renderScreen SCR_NULL w = None /\
  printScreen SCR_NULL w = None /\
  destroyScreen SCR_NULL w = None.
Proof.
  split; [exists 0; done|].
  split; [exists (joinReturn SCREEN_ERROR 0); done|].
  split; [exists (joinReturn SCREEN_ERROR 0); done|].
  done.
Qed.

(** X5: the pixel argument of the fill loop of [main] is true exactly when
    the value of [rand()] is even. *)
Theorem demo_pixel_even (r : Z) : demo_pixel r = Z.even r.
Proof.
  unfold demo_pixel.
  destruct (Z.even r) eqn:E.
  - apply Z.even_spec in E as [k ->].
    rewrite Z.mul_comm, Z.rem_mul by lia. reflexivity.
  - assert (Ho : Z.odd r = true) by (rewrite <- Z.negb_even, E; done).
    apply Z.odd_spec in Ho as [k ->].
    destruct (Z.eqb_spec (Z.rem (2 * k + 1) 2) 0) as [H0|H0]; [|reflexivity].
    apply Z.rem_divide in H0; [|lia]. destruct H0 as [q Hq]. lia.
Qed.

(** ** Invariants of allocation and of pixel writes *)

Lemma alloc_world_fresh (w : World) (st fl wd ht : Z) (msg : string) :
  heap_fresh w -> heap_fresh (alloc_world st fl wd ht msg w).
Proof.
  intros Hf a. unfold alloc_world.
  destruct (calloc_ok w (ncalloc w)), (calloc_ok w (S (ncalloc w)));
    cbn [heap brk]; intros Ha;
    rewrite ?lookup_insert_ne by lia; apply Hf; lia.
Qed.

Lemma alloc_world_keeps (w : World) (st fl wd ht : Z) (msg : string)
    (a : positive) (b : block) :
  heap_fresh w -> heap w !! a = Some b ->
  heap (alloc_world st fl wd ht msg w) !! a = Some b /\
  data (screen (alloc_world st fl wd ht msg w)) <> Some a /\
  render (screen (alloc_world st fl wd ht msg w)) <> Some a.
Proof.
  intros Hf Ha.
  assert (Hlt : (a < brk w)%positive).
  { destruct (Pos.ltb_spec a (brk w)); [done|]. rewrite Hf in Ha by done. discriminate. }
  split.
  - rewrite alloc_world_frame by lia. done.
  - unfold alloc_world.
    destruct (calloc_ok w (ncalloc w)), (calloc_ok w (S (ncalloc w)));
      cbn [screen data render]; split; intros [=]; lia.
Qed.

Lemma alloc_world_owned (w : World) (st fl wd ht : Z) (msg : string) :
  owned (alloc_world st fl wd ht msg w).
Proof.
  unfold owned, alloc_world.
  destruct (calloc_ok w (ncalloc w)), (calloc_ok w (S (ncalloc w)));
    cbn [screen data render heap]; split; intros p [= <-];
    rewrite ?lookup_insert_eq; rewrite ?lookup_insert_ne by lia;
    rewrite ?lookup_insert_eq; eauto.
Qed.

Lemma alloc_world_allocated (w : World) (st fl wd ht : Z) (msg : string) :
  is_u8 wd -> is_u8 ht ->
  calloc_ok w (ncalloc w) = true -> calloc_ok w (S (ncalloc w)) = true ->
  allocated (alloc_world st fl wd ht msg w) /\
  pixels (alloc_world st fl wd ht msg w) = Some (replicate (Z.to_nat (wd * ht)) false).
Proof.
  intros Hwd Hht E1 E2.
  destruct (alloc_world_screen w st fl wd ht msg) as (_ & _ & Hw & Hh).
  pose proof (alloc_world_pixels w st fl wd ht msg) as Hp. rewrite E1 in Hp.
  pose proof (alloc_world_glyphs w st fl wd ht msg) as Hg. rewrite E2 in Hg.
  split; [|done].
  unfold allocated, has_pixels, has_glyphs, glyphWidth, glyphHeight.
  rewrite Hw, Hh. split; [done|]. split; [done|]. unfold is_u8 in *. split.
  - eexists. split; [exact Hp|]. apply length_replicate_Z. nia.
  - eexists. split; [exact Hg|]. apply length_replicate_Z.
    pose proof (Z.div_pos wd 2). pose proof (Z.div_pos ht 3). nia.
Qed.

(** X6: from a state in which [calloc] hands out fresh addresses,
    [initScreen] returns; when it reports success the screen is ready,
    satisfies the data-model invariant and reads [false] everywhere; in
    every case each pointer of the screen is [NULL] or live, and [calloc]
    still hands out fresh addresses. *)
Theorem initScreen_establishes (w : World) (fl wd ht : Z)
    (Hwd : is_u8 wd) (Hht : is_u8 ht) (Hfresh : heap_fresh w) :
  exists r w',
    initScreen SCR_VALID fl wd ht w = Some (r, w') /\
    heap_fresh w' /\ owned w' /\
    (returnError r = 0 ->
     ready w' /\ allocated w' /\
     forall x y, 0 <= x -> 0 <= y ->
                 getScreenPixel SCR_VALID x y w' = Some (false, w')).
Proof.
  eexists _, _. split; [apply initScreen_valid|].
  split; [by apply alloc_world_fresh|]. split; [apply alloc_world_owned|].
  destruct (init_status_decode w) as (_ & Herr & _). rewrite Herr.
  destruct (calloc_ok w (ncalloc w)) eqn:E1; [|discriminate].
  destruct (calloc_ok w (S (ncalloc w))) eqn:E2; [|discriminate].
  intros _. unfold init_world.
  destruct (alloc_world_allocated w SCREEN_READY fl wd ht init_msg Hwd Hht E1 E2)
    as [Ha Hp].
  destruct (alloc_world_screen w SCREEN_READY fl wd ht init_msg) as (Hst & _ & Hw & Hh).
  split; [done|]. split; [done|].
  intros x y Hx Hy.
  rewrite (getScreenPixel_ready _ _ x y Hst Hp); [by rewrite pixel_at_cleared| |done..].
  rewrite Hw, Hh. apply length_replicate_Z. unfold is_u8 in *. nia.
Qed.

Lemma boot_fresh (ok : nat -> bool) : heap_fresh (boot ok).
Proof. intros a _. apply lookup_empty. Qed.

Lemma initScreen_establishes_witness :
  exists r w', initScreen SCR_VALID 0 2 3 (boot always) = Some (r, w') /\
               heap_fresh w' /\ owned w'.
Proof.
  assert (H2 : is_u8 2) by (unfold is_u8; lia).
  assert (H3 : is_u8 3) by (unfold is_u8; lia).
  destruct (initScreen_establishes (boot always) 0 2 3 H2 H3 (boot_fresh always))
    as (r & w' & Hrun & Hf & Ho & _).
  exists r, w'. split; [exact Hrun|]. split; [exact Hf|exact Ho].
Defined.

(** X7: [initScreen] never frees: every block that was live before the
    call is live with the same contents after it, and is not referenced by
    the screen any more, so the arrays a screen held are lost. *)
Theorem initScreen_keeps_old_blocks (w : World) (fl wd ht : Z)
    (a : positive) (b : block)
    (Hfresh : heap_fresh w) (Hlive : heap w !! a = Some b) :
  exists r w',
    initScreen SCR_VALID fl wd ht w = Some (r, w') /\
    heap w' !! a = Some b /\
    data (screen w') <> Some a /\ render (screen w') <> Some a.
Proof.
  eexists _, _. split; [apply initScreen_valid|].
  by apply alloc_world_keeps.
Qed.

Lemma initScreen_keeps_old_blocks_witness :
  exists r w',
    initScreen SCR_VALID 0 20 20 demo_world = Some (r, w') /\
    heap w' !! 1%positive = Some (BoolBlock (replicate 6 false)) /\
    data (screen w') <> Some 1%positive.
Proof.
  destruct (initScreen_keeps_old_blocks demo_world 0 20 20 1%positive
              (BoolBlock (replicate 6 false)) demo_fresh eq_refl)
    as (r & w' & Hrun & Hh & Hd & _).
  exists r, w'. split; [exact Hrun|]. split; [exact Hh|exact Hd].
Defined.

Lemma with_pixels_twice (w : World) (l l1 l2 : list bool) :
  pixels w = Some l ->
  with_pixels l2 (with_pixels l1 w) = with_pixels l2 w.
Proof.
  intros Hp. destruct (pixels_Some w l Hp) as (d & Hd & Hh).
  unfold with_pixels. rewrite Hd. cbn [screen with_heap heap]. rewrite Hd.
  unfold with_heap. cbn [screen heap brk ncalloc calloc_ok stderr].
  by rewrite insert_insert_eq.
Qed.

Lemma with_pixels_fresh (w : World) (l l' : list bool) :
  pixels w = Some l -> heap_fresh w -> heap_fresh (with_pixels l' w).
Proof.
  intros Hp Hf. destruct (pixels_Some w l Hp) as (d & Hd & Hh).
  unfold with_pixels. rewrite Hd. intros a Ha. cbn [heap brk with_heap] in *.
  destruct (decide (d = a)) as [->|Hne].
  - rewrite Hf in Hh by done. discriminate.
  - rewrite lookup_insert_ne by done. by apply Hf.
Qed.

Lemma pixel_index_inj (W x y x' y' : Z) :
  0 <= x < W -> 0 <= x' < W -> 0 <= y -> 0 <= y' ->
  y * W + x = y' * W + x' -> x = x' /\ y = y'.
Proof. intros. assert (y = y') by nia. subst. lia. Qed.

Lemma pixel_at_insert_ne (s : Screen) (l : list bool) (x y x' y' : Z) (v : bool) :
  0 <= x < width s -> 0 <= y < height s -> 0 <= x' -> 0 <= y' ->
  (x', y') <> (x, y) ->
  pixel_at s (<[Z.to_nat (y * width s + x) := v]> l) x' y' = pixel_at s l x' y'.
Proof.
  intros Hx Hy Hx' Hy' Hne. unfold pixel_at.
  destruct ((width s <=? x') || (height s <=? y')) eqn:E; [done|].
  apply orb_false_elim in E as [Ex Ey]. apply Z.leb_gt in Ex, Ey.
  rewrite !nth_lookup. rewrite list_lookup_insert_ne; [done|].
  intros Heq.
  destruct (pixel_index_inj (width s) x y x' y') as [-> ->]; try lia.
  - pose proof (pixel_index_bound (width s) (height s) x y Hx Hy).
    pose proof (pixel_index_bound (width s) (height s) x' y' ltac:(lia) ltac:(lia)).
    lia.
  - done.
Qed.

(** X8: a write at an in-bounds coordinate changes that pixel only: every
    other coordinate reads as before, and the Screen struct, the glyph
    array, the allocator and the log are untouched. *)
Theorem setScreenPixel_frame (w : World) (x y x' y' : Z) (v : bool)
    (Hready : ready w) (Hpixels : has_pixels w)
    (Hx : 0 <= x < width (screen w)) (Hy : 0 <= y < height (screen w))
    (Hx' : 0 <= x') (Hy' : 0 <= y') (Hne : (x', y') <> (x, y)) :
  exists r w1 b,
    setScreenPixel SCR_VALID x y v w = Some (r, w1) /\
    getScreenPixel SCR_VALID x' y' w = Some (b, w) /\
    getScreenPixel SCR_VALID x' y' w1 = Some (b, w1) /\
    screen w1 = screen w /\ glyphs w1 = glyphs w /\
    brk w1 = brk w /\ ncalloc w1 = ncalloc w /\ stderr w1 = stderr w.
Proof.
  destruct Hpixels as (l & Hp & Hlen).
  destruct (pixels_Some w l Hp) as (d & Hd & Hh).
  eexists _, _, _. split; [by eapply setScreenPixel_inside|].
  split; [by eapply getScreenPixel_ready|].
  split.
  { erewrite getScreenPixel_ready; [| |by eapply pixels_with_pixels| |done..].
    - rewrite screen_with_pixels. by rewrite pixel_at_insert_ne.
    - unfold ready. by rewrite screen_with_pixels.
    - by rewrite screen_with_pixels, length_insert. }
  split; [apply screen_with_pixels|].
  split; [by eapply glyphs_with_pixels|].
  unfold with_pixels. rewrite Hd. done.
Qed.

Lemma setScreenPixel_frame_witness :
  exists r w1 b,
    setScreenPixel SCR_VALID 1 2 true demo_world = Some (r, w1) /\
    getScreenPixel SCR_VALID 0 2 demo_world = Some (b, demo_world) /\
    getScreenPixel SCR_VALID 0 2 w1 = Some (b, w1).
Proof.
  destruct (setScreenPixel_frame demo_world 1 2 0 2 true demo_ready
              (proj1 (proj2 (proj2 demo_allocated))))
    as (r & w1 & b & H1 & H2 & H3 & _); [cbn; lia..|discriminate|].
  exists r, w1, b. split; [exact H1|]. split; [exact H2|exact H3].
Defined.

Lemma set_set (w : World) (l : list bool) (x y x' y' : Z) (v v' : bool) :
  ready w -> pixels w = Some l ->
  Z.of_nat (length l) = width (screen w) * height (screen w) ->
  0 <= x < width (screen w) -> 0 <= y < height (screen w) ->
  0 <= x' < width (screen w) -> 0 <= y' < height (screen w) ->
  (setScreenPixel SCR_VALID x y v ;; setScreenPixel SCR_VALID x' y' v') w
  = Some (joinReturn SCREEN_SUCCESS 0,
          with_pixels (<[Z.to_nat (y' * width (screen w) + x') := v']>
                         (<[Z.to_nat (y * width (screen w) + x) := v]> l)) w).
Proof.
  intros Hr Hp Hlen Hx Hy Hx' Hy'.
  erewrite bind_Some; [|by eapply setScreenPixel_inside].
  erewrite setScreenPixel_inside;
    [| |by eapply pixels_with_pixels| |by rewrite screen_with_pixels..].
  - rewrite screen_with_pixels. by erewrite with_pixels_twice.
  - unfold ready. by rewrite screen_with_pixels.
  - by rewrite screen_with_pixels, length_insert.
Qed.

(** X9: two writes at the same in-bounds coordinate act as the second
    alone, and two writes at different in-bounds coordinates commute. *)
Theorem setScreenPixel_compose (w : World) (x y x' y' : Z) (v v' : bool)
    (Hready : ready w) (Hpixels : has_pixels w)
    (Hx : 0 <= x < width (screen w)) (Hy : 0 <= y < height (screen w))
    (Hx' : 0 <= x' < width (screen w)) (Hy' : 0 <= y' < height (screen w)) :
  (setScreenPixel SCR_VALID x y v ;; setScreenPixel SCR_VALID x y v') w
  = setScreenPixel SCR_VALID x y v' w /\
  ((x', y') <> (x, y) ->
   (setScreenPixel SCR_VALID x y v ;; setScreenPixel SCR_VALID x' y' v') w
   = (setScreenPixel SCR_VALID x' y' v' ;; setScreenPixel SCR_VALID x y v) w).
Proof.
  destruct Hpixels as (l & Hp & Hlen). split.
  - rewrite (set_set w l) by done.
    rewrite (setScreenPixel_inside w l) by done.
    by rewrite list_insert_insert_eq.
  - intros Hne. rewrite !(set_set w l) by done.
    rewrite list_insert_insert_ne; [done|].
    intros Heq.
    destruct (pixel_index_inj (width (screen w)) x y x' y') as [-> ->]; try lia.
    + pose proof (pixel_index_bound _ _ x y Hx Hy).
      pose proof (pixel_index_bound _ _ x' y' Hx' Hy'). lia.
    + done.
Qed.

Lemma setScreenPixel_compose_witness :
  (setScreenPixel SCR_VALID 0 0 true ;; setScreenPixel SCR_VALID 0 0 false) demo_world
  = setScreenPixel SCR_VALID 0 0 false demo_world.
Proof.
  refine (proj1 (setScreenPixel_compose demo_world 0 0 1 1 true false demo_ready
                   (proj1 (proj2 (proj2 demo_allocated))) _ _ _ _)); cbn; lia.
Defined.

(** ** What a render shows *)

Lemma block_coords (x y W H : Z) :
  0 <= x < W -> 0 <= y < H ->
  0 <= x / 2 < W / 2 + 1 /\ 0 <= y / 3 < H / 3 + 1 /\
  x = x / 2 * 2 + x mod 2 /\ y = y / 3 * 3 + y mod 3 /\
  0 <= x mod 2 < 2 /\ 0 <= y mod 3 < 3.
Proof.
  intros Hx Hy.
  pose proof (Z.div_mod x 2 ltac:(lia)). pose proof (Z.mod_pos_bound x 2 ltac:(lia)).
  pose proof (Z.div_mod y 3 ltac:(lia)). pose proof (Z.mod_pos_bound y 3 ltac:(lia)).
  pose proof (Z.div_mod W 2 ltac:(lia)). pose proof (Z.mod_pos_bound W 2 ltac:(lia)).
  pose proof (Z.div_mod H 3 ltac:(lia)). pose proof (Z.mod_pos_bound H 3 ltac:(lia)).
  lia.
Qed.

Lemma block_pixels_u8_at (s : Screen) (l : list bool) (x y : Z) :
  is_u8 (width s) -> is_u8 (height s) ->
  0 <= x < width s -> 0 <= y < height s ->
  arr_at (block_pixels_u8 s l (x / 2) (y / 3)) (Z.to_nat (block_pos x y))
  = pixel_at s l x y.
Proof.
  unfold is_u8. intros Hw Hh Hx Hy.
  destruct (block_coords x y _ _ Hx Hy) as (_ & _ & Ex & Ey & Hdx & Hdy).
  unfold block_pos, block_pixels_u8.
  assert (Cx : x mod 2 = 0 \/ x mod 2 = 1) by lia.
  assert (Cy : y mod 3 = 0 \/ y mod 3 = 1 \/ y mod 3 = 2) by lia.
  destruct Cx as [Cx|Cx], Cy as [Cy|[Cy|Cy]]; rewrite Cx, Cy in *;
    cbn [Z.to_nat Z.mul Z.add Pos.to_nat Pos.iter_op Nat.add arr_at nth Pos.mul Pos.add];
    rewrite !u8_small by lia; f_equal; lia.
Qed.

(** X10: the glyph array of a render determines the picture: for every
    in-bounds pixel [(x, y)], bit [5 - (2 * (y mod 3) + x mod 2)] of the
    cell of block [(x / 2, y / 3)] is the pixel. *)
Theorem renderScreen_decodes (w : World) (x y : Z)
    (Hready : ready w) (Halloc : allocated w)
    (Hx : 0 <= x < width (screen w)) (Hy : 0 <= y < height (screen w)) :
  exists w' g c,
    renderScreen SCR_VALID w = Some (tt, w') /\
    glyphs w' = Some g /\
    g !! Z.to_nat (y / 3 * glyphWidth (screen w) + x / 2) = Some c /\
    getScreenPixel SCR_VALID x y w' = Some (Z.testbit c (5 - block_pos x y), w').
Proof.
  destruct (renderScreen_allocated w Hready Halloc)
    as (l & g0 & Hp & Hg & Hpl & Hgl & Hrun).
  destruct Halloc as (Hw & Hh & _).
  destruct (block_coords x y _ _ Hx Hy) as (Hbx & Hby & _ & _ & Hdx & Hdy).
  eexists _, _, _. split; [exact Hrun|].
  split; [by eapply glyphs_with_glyphs|].
  split; [by apply render_cells_lookup|].
  rewrite (getScreenPixel_with_glyphs w l g0 Hready Hp Hpl Hg) by lia.
  f_equal. f_equal.
  rewrite <- (block_pixels_u8_at (screen w) l x y Hw Hh Hx Hy).
  rewrite <- boolsToInt_testbit; [|done|unfold block_pos; lia].
  by rewrite Z2Nat.id by (unfold block_pos; lia).
Qed.

Lemma renderScreen_decodes_witness :
  exists w' g c,
    renderScreen SCR_VALID full_world = Some (tt, w') /\
    glyphs w' = Some g /\ g !! 0%nat = Some c /\
    getScreenPixel SCR_VALID 1 2 w' = Some (Z.testbit c 0, w').
Proof.
  assert (Hr : ready full_world) by reflexivity.
  assert (Ha : allocated full_world).
  { split; [unfold is_u8; cbn; lia|]. split; [unfold is_u8; cbn; lia|]. split.
    - exists (replicate 6 true). split; reflexivity.
    - exists (replicate 4 0). split; reflexivity. }
  destruct (renderScreen_decodes full_world 1 2 Hr Ha)
    as (w' & g & c & H1 & H2 & H3 & H4); [cbn; lia..|].
  exists w', g, c. split; [exact H1|]. split; [exact H2|].
  split; [exact H3|exact H4].
Defined.

Lemma pixel_at_right (s : Screen) (l : list bool) (x y : Z) :
  width s <= x -> pixel_at s l x y = false.
Proof.
  intros H. unfold pixel_at.
  destruct (Z.leb_spec (width s) x); [done|lia].
Qed.

Lemma pixel_at_below (s : Screen) (l : list bool) (x y : Z) :
  height s <= y -> pixel_at s l x y = false.
Proof.
  intros H. unfold pixel_at.
  destruct (Z.leb_spec (height s) y); [by rewrite orb_true_r|lia].
Qed.

(** X11: the extra block column and row are blank: when the width is even
    every cell of the last glyph column is 0, and when the height is a
    multiple of 3 below 255 every cell of the last glyph row is 0. *)
Theorem renderScreen_padding (w : World)
    (Hready : ready w) (Halloc : allocated w) :
  exists w' g,
    renderScreen SCR_VALID w = Some (tt, w') /\
    glyphs w' = Some g /\
    (width (screen w) mod 2 = 0 ->
     forall by_, 0 <= by_ < glyphHeight (screen w) ->
       g !! Z.to_nat (by_ * glyphWidth (screen w) + (glyphWidth (screen w) - 1))
       = Some 0) /\
    (height (screen w) mod 3 = 0 -> height (screen w) < 255 ->
     forall bx, 0 <= bx < glyphWidth (screen w) ->
       g !! Z.to_nat ((glyphHeight (screen w) - 1) * glyphWidth (screen w) + bx)
       = Some 0).
Proof.
  destruct (renderScreen_allocated w Hready Halloc)
    as (l & g0 & Hp & Hg & Hpl & Hgl & Hrun).
  destruct Halloc as (Hw & Hh & _).
  pose proof (glyph_dims (screen w) Hw Hh) as [Hgw Hgh].
  eexists _, _. split; [exact Hrun|]. split; [by eapply glyphs_with_glyphs|].
  unfold is_u8 in *.
  pose proof (Z.div_mod (width (screen w)) 2 ltac:(lia)) as Dw.
  pose proof (Z.div_mod (height (screen w)) 3 ltac:(lia)) as Dh.
  split.
  - intros Heven by_ Hby. rewrite render_cells_lookup by lia.
    unfold block_pixels_u8, glyphWidth.
    rewrite !(pixel_at_right (screen w) l); [done|unfold u8..].
    all: rewrite Z.mod_small by lia; lia.
  - intros Hthree Hlt bx Hbx. rewrite render_cells_lookup by lia.
    unfold block_pixels_u8, glyphHeight.
    rewrite !(pixel_at_below (screen w) l); [done|unfold u8..].
    all: rewrite Z.mod_small by lia; lia.
Qed.

Lemma renderScreen_padding_witness :
  exists w' g,
    renderScreen SCR_VALID demo_world = Some (tt, w') /\
    glyphs w' = Some g /\ g !! 1%nat = Some 0 /\ g !! 3%nat = Some 0.
Proof.
  destruct (renderScreen_padding demo_world demo_ready demo_allocated)
    as (w' & g & H1 & H2 & Hc & Hr).
  exists w', g. split; [exact H1|]. split; [exact H2|]. split.
  - apply (Hc eq_refl 0). change (0 <= 0 < 2). lia.
  - apply (Hr eq_refl ltac:(change (3 < 255); lia) 1). change (0 <= 1 < 2). lia.
Defined.

Lemma map_const_replicate {A} (f : nat -> A) (a : A) (n : nat) :
  (forall i, f i = a) -> map f (seq 0 n) = replicate n a.
Proof.
  intros Hf. apply list_eq. intros i. rewrite list_lookup_fmap.
  destruct (decide (i < n)%nat).
  - rewrite lookup_seq_lt by done. cbn. rewrite Hf.
    symmetry. by apply lookup_replicate_2.
  - rewrite lookup_seq_ge by lia. symmetry. apply lookup_replicate_None. lia.
Qed.

(** X12: a screen on which every read gives [false] renders to a glyph
    array of zeros, at every height. *)
Theorem renderScreen_blank (w : World)
    (Hready : ready w) (Halloc : allocated w)
    (Hblank : forall x y, 0 <= x -> 0 <= y ->
                          getScreenPixel SCR_VALID x y w = Some (false, w)) :
  exists w',
    renderScreen SCR_VALID w = Some (tt, w') /\
    glyphs w'
    = Some (replicate (Z.to_nat (glyphWidth (screen w) * glyphHeight (screen w))) 0).
Proof.
  destruct (renderScreen_allocated w Hready Halloc)
    as (l & g0 & Hp & Hg & Hpl & Hgl & Hrun).
  assert (Hoff : forall x y, 0 <= x -> 0 <= y -> pixel_at (screen w) l x y = false).
  { intros x y Hx Hy. specialize (Hblank x y Hx Hy).
    rewrite (getScreenPixel_ready w l x y Hready Hp Hpl Hx Hy) in Hblank.
    congruence. }
  eexists. split; [exact Hrun|].
  rewrite (glyphs_with_glyphs w g0 Hg). f_equal.
  unfold render_cells. apply map_const_replicate. intros i.
  unfold cell_value, block_pixels_u8.
  rewrite !Hoff by apply u8_nonneg. reflexivity.
Qed.

Lemma renderScreen_blank_witness :
  exists w', renderScreen SCR_VALID demo_world = Some (tt, w') /\
             glyphs w' = Some (replicate 4 0).
Proof.
  apply (renderScreen_blank demo_world demo_ready demo_allocated).
  intros x y Hx Hy.
  rewrite (getScreenPixel_ready demo_world (replicate 6 false) x y
             demo_ready eq_refl eq_refl Hx Hy).
  by rewrite pixel_at_cleared.
Defined.

Lemma with_glyphs_fresh (w : World) (g0 g : list Z) :
  glyphs w = Some g0 -> heap_fresh w -> heap_fresh (with_glyphs g w).
Proof.
  intros Hg Hf. destruct (glyphs_Some w g0 Hg) as (r & Hr & Hh).
  rewrite (with_glyphs_eq w r g Hr). intros a Ha. cbn [heap brk with_heap] in *.
  destruct (decide (r = a)) as [->|Hne].
  - rewrite Hf in Hh by done. discriminate.
  - rewrite lookup_insert_ne by done. by apply Hf.
Qed.

Lemma allocated_with_pixels (w : World) (l l' : list bool) :
  allocated w -> pixels w = Some l -> length l' = length l ->
  allocated (with_pixels l' w).
Proof.
  intros (Hw & Hh & (l0 & Hp & Hpl) & (g & Hg & Hgl)) Hl Hlen.
  assert (l0 = l) as -> by congruence.
  unfold allocated, has_pixels, has_glyphs. rewrite screen_with_pixels.
  split; [done|]. split; [done|]. split.
  - exists l'. split; [by eapply pixels_with_pixels|]. by rewrite Hlen.
  - exists g. split; [|done]. by erewrite glyphs_with_pixels.
Qed.

(** X13: on a ready screen that satisfies the data-model invariant, with
    fresh addresses at the allocator, reads, writes and renders never fault
    and keep all three: a read leaves the state as it is, a write and a
    render lead to a state that is again ready, allocated and fresh. *)
Theorem operations_keep_invariant (w : World) (x y : Z) (v : bool)
    (Hready : ready w) (Halloc : allocated w) (Hfresh : heap_fresh w)
    (Hx : 0 <= x) (Hy : 0 <= y) :
  (exists b, getScreenPixel SCR_VALID x y w = Some (b, w)) /\
  (exists r w1, setScreenPixel SCR_VALID x y v w = Some (r, w1) /\
                ready w1 /\ allocated w1 /\ heap_fresh w1) /\
  (exists w2, renderScreen SCR_VALID w = Some (tt, w2) /\
              ready w2 /\ allocated w2 /\ heap_fresh w2).
Proof.
  destruct (renderScreen_allocated w Hready Halloc)
    as (l & g0 & Hp & Hg & Hpl & Hgl & Hrun).
  split; [eexists; by eapply getScreenPixel_ready|].
  split.
  - destruct (Z.le_gt_cases (width (screen w)) x) as [Hox|Hix];
      [|destruct (Z.le_gt_cases (height (screen w)) y) as [Hoy|Hiy]].
    + eexists _, _. split; [apply setScreenPixel_outside; auto|done].
    + eexists _, _. split; [apply setScreenPixel_outside; auto|done].
    + eexists _, _. split; [by eapply setScreenPixel_inside|].
      split; [unfold ready; by rewrite screen_with_pixels|].
      split; [eapply allocated_with_pixels; [done..|apply length_insert]|].
      by eapply with_pixels_fresh.
  - eexists. split; [exact Hrun|].
    split; [unfold ready; by rewrite screen_with_glyphs|].
    split; [|by eapply with_glyphs_fresh].
    eapply allocated_with_glyphs; [done..|].
    destruct Halloc as (Hw & Hh & _). by apply length_render_cells.
Qed.

Lemma operations_keep_invariant_witness :
  exists r w1, setScreenPixel SCR_VALID 1 1 true demo_world = Some (r, w1) /\
               ready w1 /\ allocated w1 /\ heap_fresh w1.
Proof.
  exact (proj1 (proj2 (operations_keep_invariant demo_world 1 1 true
                         demo_ready demo_allocated demo_fresh
                         ltac:(lia) ltac:(lia)))).
Defined.

(** ** Releasing and replacing the arrays *)

Lemma owned_distinct (w : World) (d r : positive) :
  owned w -> data (screen w) = Some d -> render (screen w) = Some r -> d <> r.
Proof.
  intros [Hd Hr] Ed Er. destruct (Hd d Ed) as [l Hl]. destruct (Hr r Er) as [g Hg].
  intros ->. congruence.
Qed.

Lemma allocated_owned (w : World) : allocated w -> owned w.
Proof.
  intros (_ & _ & (l & Hp & _) & (g & Hg & _)).
  destruct (pixels_Some w l Hp) as (d & Hd & Hhd).
  destruct (glyphs_Some w g Hg) as (r & Hr & Hhr).
  split; intros p Hp'.
  - exists l. congruence.
  - exists g. congruence.
Qed.

Ltac heap_step :=
  cbn [screen heap brk ncalloc calloc_ok stderr set_data set_render drop_block
         status width height flags data render].

Lemma destroyScreen_owned (w : World) :
  owned w -> destroyScreen SCR_VALID w = Some (tt, destroy_world w).
Proof.
  intros Ho. pose proof Ho as [Hd Hr].
  unfold destroyScreen, destroy_world.
  unfold bind, free, modify_screen, get_screen, with_screen, with_heap, ret.
  destruct (data (screen w)) as [d|] eqn:Ed;
    destruct (render (screen w)) as [r|] eqn:Er.
  - destruct (Hd d eq_refl) as [l Hl]. destruct (Hr r eq_refl) as [g Hg].
    pose proof (owned_distinct w d r Ho Ed Er) as Hne.
    rewrite bool_decide_eq_false_2 by done. rewrite Hl. heap_step.
    rewrite Er. rewrite bool_decide_eq_false_2 by done. heap_step.
    rewrite lookup_delete_ne by done. rewrite Hg. heap_step. done.
  - destruct (Hd d eq_refl) as [l Hl].
    rewrite bool_decide_eq_false_2 by done. rewrite Hl. heap_step.
    rewrite Er. rewrite bool_decide_eq_true_2 by done. heap_step.
    unfold set_render, set_data. heap_step. by rewrite Er.
  - destruct (Hr r eq_refl) as [g Hg].
    rewrite bool_decide_eq_true_2 by done. rewrite Er.
    rewrite bool_decide_eq_false_2 by done. rewrite Hg. heap_step.
    unfold set_render, set_data. heap_step. by rewrite Ed.
  - rewrite bool_decide_eq_true_2 by done. rewrite Er.
    rewrite bool_decide_eq_true_2 by done. heap_step.
    unfold set_render, set_data. heap_step.
    destruct w as [[]]; cbn in *; by subst.
Qed.

Lemma destroy_world_owned (w : World) : owned (destroy_world w).
Proof. split; intros p; discriminate. Qed.

Lemma destroy_world_twice (w : World) :
  destroy_world (destroy_world w) = destroy_world w.
Proof. reflexivity. Qed.

(** X14: when each pointer of the screen is [NULL] or live,
    [destroyScreen] returns, frees the arrays the screen holds, sets both
    pointers to [NULL] and leaves status, dimensions, flags and every other
    block as they are; a second [destroyScreen] changes nothing. *)
Theorem destroyScreen_releases (w : World) (Howned : owned w) :
  exists w',
    destroyScreen SCR_VALID w = Some (tt, w') /\
    data (screen w') = None /\ render (screen w') = None /\
    status (screen w') = status (screen w) /\
    width (screen w') = width (screen w) /\
    height (screen w') = height (screen w) /\
    flags (screen w') = flags (screen w) /\
    (forall a, data (screen w) = Some a \/ render (screen w) = Some a ->
               heap w' !! a = None) /\
    (forall a, data (screen w) <> Some a -> render (screen w) <> Some a ->
               heap w' !! a = heap w !! a) /\
    destroyScreen SCR_VALID w' = Some (tt, w').
Proof.
  exists (destroy_world w). split; [by apply destroyScreen_owned|].
  do 6 (split; [done|]). split; [|split].
  - intros a Ha. unfold destroy_world. cbn [heap].
    destruct (data (screen w)) as [d|], (render (screen w)) as [r|];
      cbn [drop_block]; destruct Ha as [[= ->]|[= ->]].
    + destruct (decide (r = a)) as [->|Hne]; [apply lookup_delete_eq|].
      rewrite lookup_delete_ne by done. apply lookup_delete_eq.
    + apply lookup_delete_eq.
    + apply lookup_delete_eq.
    + apply lookup_delete_eq.
  - intros a Ha1 Ha2. unfold destroy_world. cbn [heap].
    destruct (data (screen w)) as [d|], (render (screen w)) as [r|];
      cbn [drop_block]; rewrite ?lookup_delete_ne by congruence; done.
  - rewrite destroyScreen_owned by apply destroy_world_owned.
    by rewrite destroy_world_twice.
Qed.

Lemma destroyScreen_releases_witness :
  exists w',
    destroyScreen SCR_VALID demo_world = Some (tt, w') /\
    data (screen w') = None /\ render (screen w') = None.
Proof.
  destruct (destroyScreen_releases demo_world (allocated_owned _ demo_allocated))
    as (w' & H1 & H2 & H3 & _).
  exists w'. split; [exact H1|]. split; [exact H2|exact H3].
Defined.

(** X15: [initScreen] followed by [destroyScreen] gives the heap back as
    it was, whichever of the two allocations fail. *)
Theorem initScreen_destroyScreen_heap (w : World) (fl wd ht : Z)
    (Hfresh : heap_fresh w) :
  exists w',
    (initScreen SCR_VALID fl wd ht ;; destroyScreen SCR_VALID) w = Some (tt, w') /\
    heap w' = heap w /\
    data (screen w') = None /\ render (screen w') = None.
Proof.
  exists (destroy_world (init_world fl wd ht w)).
  split.
  { erewrite bind_Some; [|apply initScreen_valid].
    apply destroyScreen_owned, alloc_world_owned. }
  split; [|done].
  pose proof (Hfresh (brk w) ltac:(lia)) as H0.
  pose proof (Hfresh (Pos.succ (brk w)) ltac:(lia)) as H1.
  unfold destroy_world, init_world, alloc_world. cbn [heap].
  destruct (calloc_ok w (ncalloc w)), (calloc_ok w (S (ncalloc w)));
    cbn [screen data render heap drop_block].
  - rewrite delete_insert_ne by lia.
    rewrite (delete_insert_id (heap w) (brk w)) by done.
    by rewrite delete_insert_id.
  - by rewrite delete_insert_id.
  - by rewrite delete_insert_id.
  - done.
Qed.

Lemma initScreen_destroyScreen_heap_witness :
  exists w',
    (initScreen SCR_VALID 0 2 3 ;; destroyScreen SCR_VALID) (boot always)
    = Some (tt, w') /\ heap w' = heap (boot always).
Proof.
  destruct (initScreen_destroyScreen_heap (boot always) 0 2 3 (boot_fresh always))
    as (w' & H1 & H2 & _).
  exists w'. split; [exact H1|exact H2].
Defined.

Lemma getScreenPixel_no_data (w : World) (x y : Z) :
  ready w -> data (screen w) = None ->
  getScreenPixel SCR_VALID x y w
  = if (width (screen w) <=? x) || (height (screen w) <=? y)
    then Some (false, w) else None.
Proof.
  intros Hr Hd. unfold getScreenPixel, bind, get_screen. rewrite Hr. cbn [negb Z.eqb].
  change (negb (SCREEN_READY =? SCREEN_READY)) with false. cbv iota.
  destruct ((width (screen w) <=? x) || (height (screen w) <=? y)); [done|].
  unfold load_bool. by rewrite Hd.
Qed.

Lemma setScreenPixel_no_data (w : World) (x y : Z) (v : bool) :
  ready w -> data (screen w) = None ->
  setScreenPixel SCR_VALID x y v w
  = if (width (screen w) <=? x) || (height (screen w) <=? y)
    then Some (0, w) else None.
Proof.
  intros Hr Hd. unfold setScreenPixel, bind, get_screen. rewrite Hr.
  change (negb (SCREEN_READY =? SCREEN_READY)) with false. cbv iota.
  destruct ((width (screen w) <=? x) || (height (screen w) <=? y)); [done|].
  unfold store_bool. by rewrite Hd.
Qed.

Lemma renderScreen_body_no_arrays (w : World) (gw x y : Z) :
  ready w -> data (screen w) = None -> render (screen w) = None ->
  renderScreen_body SCR_VALID gw x y w = None.
Proof.
  intros Hr Hd Hg. unfold renderScreen_body, bind.
  repeat match goal with
         | |- context [getScreenPixel SCR_VALID ?a ?b w] =>
             rewrite (getScreenPixel_no_data w a b Hr Hd);
             destruct ((width (screen w) <=? a) || (height (screen w) <=? b));
             [|done]
         end.
  unfold get_screen, store_u8. by rewrite Hg.
Qed.

Lemma glyph_counts (s : Screen) :
  is_u8 (width s) -> is_u8 (height s) ->
  (exists n, Z.to_nat (u8 (width s / 2 + 1)) = S n) /\
  (exists m, Z.to_nat (u8 (height s / 3 + 1)) = S m).
Proof.
  intros Hw Hh. destruct (glyph_dims s Hw Hh) as [Hgw Hgh].
  unfold glyphWidth, glyphHeight in *. rewrite !u8_small by lia.
  split.
  - exists (Z.to_nat (width s / 2)). lia.
  - exists (Z.to_nat (height s / 3)). lia.
Qed.

(** X16: [destroyScreen] leaves the status at [SCREEN_READY], so the
    guards of the other functions do not see a destroyed screen: an
    in-bounds read or write, a render and a print then go through [NULL]. *)
Theorem use_after_destroy (w : World) (x y : Z) (v : bool)
    (Hready : ready w) (Halloc : allocated w)
    (Hx : 0 <= x < width (screen w)) (Hy : 0 <= y < height (screen w)) :
  exists wd,
    destroyScreen SCR_VALID w = Some (tt, wd) /\
    ready wd /\
    getScreenPixel SCR_VALID x y wd = None /\
    setScreenPixel SCR_VALID x y v wd = None /\
    renderScreen SCR_VALID wd = None /\
    printScreen SCR_VALID wd = None.
Proof.
  exists (destroy_world w).
  split; [apply destroyScreen_owned, allocated_owned, Halloc|].
  assert (Hr : ready (destroy_world w)) by exact Hready.
  assert (Hin : (width (screen (destroy_world w)) <=? x)
                || (height (screen (destroy_world w)) <=? y) = false).
  { apply orb_false_iff. rewrite !Z.leb_gt. cbn. lia. }
  destruct Halloc as (Hw & Hh & _).
  destruct (glyph_counts (screen (destroy_world w)) Hw Hh) as [[n Hn] [m Hm]].
  split; [done|]. split; [|split; [|split]].
  - rewrite getScreenPixel_no_data by done. by rewrite Hin.
  - rewrite setScreenPixel_no_data by done. by rewrite Hin.
  - unfold renderScreen, bind at 1, get_screen, for_lt. rewrite Hn, Hm.
    cbn [for_from]. unfold bind.
    by rewrite renderScreen_body_no_arrays.
  - unfold printScreen, bind at 1, get_screen. rewrite Hm.
    cbn [for_acc]. unfold bind at 1. unfold bind at 1.
    unfold printScreen_row. rewrite Hn. cbn [for_acc]. unfold bind at 1. unfold bind at 1.
    unfold printScreen_glyph, bind, get_screen, load_u8. done.
Qed.

Lemma use_after_destroy_witness :
  exists wd,
    destroyScreen SCR_VALID demo_world = Some (tt, wd) /\
    getScreenPixel SCR_VALID 0 0 wd = None /\ renderScreen SCR_VALID wd = None.
Proof.
  destruct (use_after_destroy demo_world 0 0 true demo_ready demo_allocated)
    as (wd & H1 & _ & H2 & _ & H3 & _); [cbn; lia..|].
  exists wd. split; [exact H1|]. split; [exact H2|exact H3].
Defined.

Lemma resizeScreen_owned (w : World) (wd ht : Z) :
  owned w ->
  resizeScreen SCR_VALID wd ht w
  = Some (joinReturn (init_status w) 0,
          alloc_world (status (screen w)) (flags (screen w)) wd ht resize_msg
                      (with_heap (resize_heap w) w)).
Proof.
  intros Ho. pose proof Ho as [Hd Hr].
  unfold resizeScreen, resize_heap. unfold bind at 1, get_screen.
  destruct (data (screen w)) as [d|] eqn:Ed.
  - destruct (Hd d eq_refl) as [l Hl].
    rewrite bool_decide_eq_false_2 by done.
    unfold bind at 1. unfold bind at 1. unfold free at 1. rewrite Hl.
    unfold bind at 1. unfold free at 1. cbn [heap with_heap].
    destruct (render (screen w)) as [r|] eqn:Er.
    + destruct (Hr r eq_refl) as [g Hg].
      pose proof (owned_distinct w d r Ho Ed Er) as Hne.
      rewrite lookup_delete_ne by done. rewrite Hg.
      unfold init_status, alloc_world, resize_msg, bind, modify_screen, get_screen,
        calloc_bool, calloc_u8, calloc, eprint, logged, ret, with_screen, with_heap.
      heap_step.
      destruct (calloc_ok w (ncalloc w)); heap_step;
        destruct (calloc_ok w (S (ncalloc w))); reflexivity.
    + unfold init_status, alloc_world, resize_msg, bind, modify_screen, get_screen,
        calloc_bool, calloc_u8, calloc, eprint, logged, ret, with_screen, with_heap.
      heap_step.
      destruct (calloc_ok w (ncalloc w)); heap_step;
        destruct (calloc_ok w (S (ncalloc w))); reflexivity.
  - rewrite bool_decide_eq_true_2 by done.
    unfold init_status, alloc_world, resize_msg, bind, modify_screen, get_screen,
      calloc_bool, calloc_u8, calloc, eprint, logged, ret, with_screen, with_heap.
    heap_step.
    destruct (calloc_ok w (ncalloc w)); heap_step;
      destruct (calloc_ok w (S (ncalloc w))); reflexivity.
Qed.

Lemma resize_heap_released (w : World) (d r : positive) :
  data (screen w) = Some d -> render (screen w) = Some r ->
  resize_heap w !! d = None /\ resize_heap w !! r = None.
Proof.
  intros Ed Er. unfold resize_heap. rewrite Ed, Er. cbn [drop_block].
  split; [|apply lookup_delete_eq].
  destruct (decide (r = d)) as [->|Hne]; [apply lookup_delete_eq|].
  rewrite lookup_delete_ne by done. apply lookup_delete_eq.
Qed.

(** X17: [resizeScreen] frees before it allocates: when an allocation
    fails on a ready, allocated screen it reports [SCREEN_ERROR], the old
    arrays are gone, the dimensions are already the new ones and the status
    is still [SCREEN_READY], while one of the two pointers is [NULL]. *)
Theorem resizeScreen_failure (w : World) (w2 h2 : Z)
    (Hready : ready w) (Halloc : allocated w) (Hfresh : heap_fresh w)
    (Hfail : calloc_ok w (ncalloc w) && calloc_ok w (S (ncalloc w)) = false) :
  exists r w',
    resizeScreen SCR_VALID w2 h2 w = Some (r, w') /\
    returnError r = SCREEN_ERROR /\
    ready w' /\ width (screen w') = w2 /\ height (screen w') = h2 /\
    (data (screen w') = None \/ render (screen w') = None) /\
    (forall a, data (screen w) = Some a \/ render (screen w) = Some a ->
               heap w' !! a = None).
Proof.
  pose proof (allocated_owned w Halloc) as Ho.
  destruct Halloc as (_ & _ & (l & Hp & _) & (g & Hg & _)).
  destruct (pixels_Some w l Hp) as (d & Hd & Hhd).
  destruct (glyphs_Some w g Hg) as (r & Hr & Hhr).
  eexists _, _. split; [by apply resizeScreen_owned|].
  destruct (init_status_decode w) as (_ & Herr & _). rewrite Herr, Hfail.
  split; [done|].
  set (w0 := with_heap (resize_heap w) w).
  destruct (alloc_world_screen w0 (status (screen w)) (flags (screen w)) w2 h2 resize_msg)
    as (Hst & _ & Hwd & Hht).
  split; [unfold ready; by rewrite Hst|]. split; [done|]. split; [done|].
  split.
  - pose proof (alloc_world_pixels w0 (status (screen w)) (flags (screen w)) w2 h2 resize_msg)
      as Hpx.
    pose proof (alloc_world_glyphs w0 (status (screen w)) (flags (screen w)) w2 h2 resize_msg)
      as Hgl.
    cbn [w0 with_heap calloc_ok ncalloc] in Hpx, Hgl.
    destruct (calloc_ok w (ncalloc w)); [|by left].
    destruct (calloc_ok w (S (ncalloc w))); [discriminate|by right].
  - intros a Ha.
    assert (Hlt : (a < brk w)%positive).
    { destruct (Pos.ltb_spec a (brk w)); [done|].
      destruct Ha as [Ha|Ha]; rewrite Ha in *.
      - injection Hd as ->. rewrite Hfresh in Hhd by done. discriminate.
      - injection Hr as ->. rewrite Hfresh in Hhr by done. discriminate. }
    rewrite alloc_world_frame by (cbn [w0 with_heap brk]; lia).
    cbn [w0 with_heap heap].
    destruct (resize_heap_released w d r Hd Hr) as [H1 H2].
    destruct Ha as [Ha|Ha]; congruence.
Qed.

Lemma resizeScreen_failure_witness :
  exists r w',
    resizeScreen SCR_VALID 4 6 tight_world = Some (r, w') /\
    returnError r = SCREEN_ERROR /\ width (screen w') = 4.
Proof.
  assert (Hr : ready tight_world) by exact demo_ready.
  assert (Ha : allocated tight_world) by exact demo_allocated.
  assert (Hf : heap_fresh tight_world) by exact demo_fresh.
  destruct (resizeScreen_failure tight_world 4 6 Hr Ha Hf eq_refl)
    as (r & w' & H1 & H2 & _ & H3 & _).
  exists r, w'. split; [exact H1|]. split; [exact H2|exact H3].
Defined.




(** ** Printing *)

Lemma string_length_app (s t : string) :
  String.length (s ++ t) = (String.length s + String.length t)%nat.
Proof. induction s as [|c s IH]; [done|]. simpl. f_equal. exact IH. Qed.

Lemma glyph_of_spec (c : Z) :
  0 <= c <= 63 ->
  char_map !! Z.to_nat c = Some (glyph_of c) /\
  (String.length (glyph_of c) <= 4)%nat.
Proof.
  intros Hc.
  assert (Hlt : (Z.to_nat c < length char_map)%nat) by (rewrite length_char_map; lia).
  destruct (lookup_lt_is_Some_2 _ _ Hlt) as [s Hs].
  assert (Hg : glyph_of c = s) by (by apply nth_lookup_Some).
  rewrite Hg. split; [done|].
  assert (Hall : Forall (fun s => (String.length s <= 4)%nat) char_map).
  { apply (bool_decide_unpack _). vm_compute. exact I. }
  rewrite Forall_forall in Hall. apply Hall. by eapply list_elem_of_lookup_2.
Qed.

Lemma row_from_S (g : list Z) (gw y : Z) (x0 n : nat) (buf : string) :
  row_from g gw y x0 (S n) buf
  = row_from g gw y (S x0) n (buf ++ glyph_of (nth (Z.to_nat (y * gw) + x0) g 0)).
Proof. reflexivity. Qed.

Section Print.
Variable w : World.
Variable g : list Z.
Hypothesis Hwidth : is_u8 (width (screen w)).
Hypothesis Hheight : is_u8 (height (screen w)).
Hypothesis Hgly : glyphs w = Some g.
Hypothesis Hglen :
  Z.of_nat (length g) = glyphWidth (screen w) * glyphHeight (screen w).
Hypothesis Hcells : forall c, In c g -> 0 <= c <= 63.

Local Abbreviation gw := (glyphWidth (screen w)).
Local Abbreviation gh := (glyphHeight (screen w)).

Lemma printScreen_glyph_spec (i : Z) :
  0 <= i < gw * gh ->
  printScreen_glyph i w = Some (glyph_of (nth (Z.to_nat i) g 0), w) /\
  (String.length (glyph_of (nth (Z.to_nat i) g 0%Z)) <= 4)%nat.
Proof using All.
  intros Hi.
  destruct (glyphs_Some w g Hgly) as (r & Hr & Hh).
  destruct (lookup_lt_is_Some_2 g (Z.to_nat i) ltac:(lia)) as [c Hc].
  assert (Hn : nth (Z.to_nat i) g 0 = c) by (by apply nth_lookup_Some).
  assert (Hc63 : 0 <= c <= 63).
  { apply Hcells, list_elem_of_In. by eapply list_elem_of_lookup_2. }
  destruct (glyph_of_spec c Hc63) as [Hlook Hlen].
  rewrite Hn. split; [|done].
  unfold printScreen_glyph, bind, get_screen, load_u8. rewrite Hr, Hh.
  destruct (Z.ltb_spec i 0); [lia|]. by rewrite Hc, Hlook.
Qed.

Lemma printScreen_row_from (y : Z) (n x0 : nat) (buf : string) :
  0 <= y < gh -> Z.of_nat x0 + Z.of_nat n <= gw ->
  (String.length buf <= 4 * x0)%nat ->
  for_acc (Z.of_nat x0) n
    (fun x buf => a <- printScreen_glyph (u16 (y * gw + x)) ;; strcat 513 buf a)
    buf w
  = Some (row_from g gw y x0 n buf, w) /\
  (String.length (row_from g gw y x0 n buf) <= 4 * (x0 + n))%nat.
Proof using All.
  pose proof (glyph_dims _ Hwidth Hheight) as [Hgw Hgh].
  revert x0 buf. induction n as [|n IH]; intros x0 buf Hy Hx Hbuf.
  { cbn. split; [done|lia]. }
  cbn [for_acc]. rewrite row_from_S.
  assert (Hi : 0 <= y * gw + Z.of_nat x0 < gw * gh) by nia.
  assert (Hu : u16 (y * gw + Z.of_nat x0) = y * gw + Z.of_nat x0).
  { unfold u16. apply Z.mod_small. nia. }
  destruct (printScreen_glyph_spec _ Hi) as [Hrun Hlen].
  replace (Z.to_nat (y * gw + Z.of_nat x0)) with (Z.to_nat (y * gw) + x0)%nat
    in Hrun, Hlen by nia.
  unfold bind at 1. unfold bind at 1. rewrite Hu, Hrun.
  unfold strcat at 1.
  destruct (Nat.leb_spec
              (String.length buf
               + String.length (glyph_of (nth (Z.to_nat (y * gw) + x0) g 0%Z)) + 1) 513)
    as [_|Hover]; [|lia].
  unfold ret at 1.
  replace (Z.of_nat x0 + 1) with (Z.of_nat (S x0)) by lia.
  destruct (IH (S x0) (buf ++ glyph_of (nth (Z.to_nat (y * gw) + x0) g 0))%string)
    as [Hrest Hrlen]; [done|lia|rewrite string_length_app; lia|].
  split; [exact Hrest|]. lia.
Qed.

Lemma printScreen_row_spec (y : Z) :
  0 <= y < gh ->
  printScreen_row (u8 (width (screen w) / 2 + 1)) y w = Some (row_text g gw y, w) /\
  (String.length (row_text g gw y) <= 512)%nat.
Proof using All.
  intros Hy. pose proof (glyph_dims _ Hwidth Hheight) as [Hgw Hgh].
  fold gw. rewrite u8_small by lia. unfold printScreen_row.
  destruct (printScreen_row_from y (Z.to_nat gw) 0 EmptyString Hy) as [Hrun Hlen];
    [lia|cbn; lia|].
  split; [exact Hrun|].
  change (row_text g gw y) with (row_from g gw y 0 (Z.to_nat gw) EmptyString).
  lia.
Qed.

Lemma printScreen_rows (m y0 : nat) (out : list string) :
  Z.of_nat y0 + Z.of_nat m <= gh ->
  for_acc (Z.of_nat y0) m
    (fun y out =>
       buf <- printScreen_row (u8 (width (screen w) / 2 + 1)) y ;;
       ret (out ++ [printXY (y + 2) 2 buf]))
    out w
  = Some (out ++ map (fun y => printXY (Z.of_nat y + 2) 2 (row_text g gw (Z.of_nat y)))
                     (seq y0 m), w).
Proof using All.
  revert y0 out. induction m as [|m IH]; intros y0 out Hm.
  { cbn. by rewrite app_nil_r. }
  cbn [for_acc seq map].
  destruct (printScreen_row_spec (Z.of_nat y0) ltac:(lia)) as [Hrow _].
  unfold bind at 1. unfold bind at 1. rewrite Hrow. unfold ret at 1.
  replace (Z.of_nat y0 + 1) with (Z.of_nat (S y0)) by lia.
  rewrite IH by lia. by rewrite <- app_assoc.
Qed.

Lemma printScreen_spec :
  printScreen SCR_VALID w = Some (screen_text g gw gh, w).
Proof using All.
  pose proof (glyph_dims _ Hwidth Hheight) as [Hgw Hgh].
  unfold printScreen. unfold bind at 1, get_screen.
  unfold bind. fold gh. rewrite (u8_small gh) by lia.
  change 0 with (Z.of_nat 0).
  rewrite printScreen_rows by lia. done.
Qed.
End Print.

(** X19: on a screen whose glyph array is live with
    [(width/2 + 1) * (height/3 + 1)] cells, all at most 63, [printScreen]
    returns and changes nothing; it writes one cursor move to line [y + 2],
    column 2 per glyph row, followed by the glyphs of the row in order, and
    a final newline; no row exceeds the 512 bytes of [buf]. *)
Theorem printScreen_output (w : World) (g : list Z)
    (Hwidth : is_u8 (width (screen w))) (Hheight : is_u8 (height (screen w)))
    (Hgly : glyphs w = Some g)
    (Hglen : Z.of_nat (length g) = glyphWidth (screen w) * glyphHeight (screen w))
    (Hcells : forall c, In c g -> 0 <= c <= 63) :
  printScreen SCR_VALID w
  = Some (screen_text g (glyphWidth (screen w)) (glyphHeight (screen w)), w) /\
  length (screen_text g (glyphWidth (screen w)) (glyphHeight (screen w)))
  = S (Z.to_nat (glyphHeight (screen w))) /\
  forall y, 0 <= y < glyphHeight (screen w) ->
            (String.length (row_text g (glyphWidth (screen w)) y) <= 512)%nat.
Proof.
  split; [by apply printScreen_spec|]. split.
  - unfold screen_text. rewrite length_app, length_map, length_seq. cbn. lia.
  - intros y Hy.
    by destruct (printScreen_row_spec w g Hwidth Hheight Hgly Hglen Hcells y Hy).
Qed.

Lemma printScreen_output_witness :
  printScreen SCR_VALID demo_world
  = Some (screen_text (replicate 4 0) 2 2, demo_world).
Proof.
  destruct demo_allocated as (Hw & Hh & _ & _).
  refine (proj1 (printScreen_output demo_world (replicate 4 0) Hw Hh eq_refl eq_refl _)).
  intros c Hc. apply list_elem_of_In, elem_of_replicate in Hc as [-> _]. lia.
Defined.

(** X20: a render followed by a print never faults on a ready screen that
    satisfies the data-model invariant, whatever the pixels: the print
    writes [height/3 + 1] rows and a newline and leaves the state of the
    render. *)
Theorem render_then_print (w : World)
    (Hready : ready w) (Halloc : allocated w) :
  exists w' g,
    renderScreen SCR_VALID w = Some (tt, w') /\
    glyphs w' = Some g /\
    (renderScreen SCR_VALID ;; printScreen SCR_VALID) w
    = Some (screen_text g (glyphWidth (screen w)) (glyphHeight (screen w)), w') /\
    length (screen_text g (glyphWidth (screen w)) (glyphHeight (screen w)))
    = S (Z.to_nat (height (screen w) / 3 + 1)).
Proof.
  destruct (renderScreen_allocated w Hready Halloc)
    as (l & g0 & Hp & Hg & Hpl & Hgl & Hrun).
  destruct Halloc as (Hw & Hh & _).
  set (cells := render_cells (screen w) l) in *.
  pose proof (glyphs_with_glyphs w g0 Hg cells) as Hg'.
  assert (Hlen : Z.of_nat (length cells)
                 = glyphWidth (screen (with_glyphs cells w))
                   * glyphHeight (screen (with_glyphs cells w))).
  { rewrite screen_with_glyphs. by apply length_render_cells. }
  destruct (printScreen_output (with_glyphs cells w) cells) as (Hprint & Hn & _);
    [by rewrite screen_with_glyphs..|done|done|apply render_cells_range|].
  rewrite screen_with_glyphs in Hprint, Hn.
  exists (with_glyphs cells w), cells.
  split; [done|]. split; [done|]. split; [|exact Hn].
  erewrite bind_Some; [|exact Hrun]. exact Hprint.
Qed.

Lemma render_then_print_witness :
  exists w' g,
    renderScreen SCR_VALID demo_world = Some (tt, w') /\
    (renderScreen SCR_VALID ;; printScreen SCR_VALID) demo_world
    = Some (screen_text g 2 2, w').
Proof.
  destruct (render_then_print demo_world demo_ready demo_allocated)
    as (w' & g & H1 & _ & H2 & _).
  exists w', g. split; [exact H1|exact H2].
Defined.

Lemma string_app_assoc (s t u : string) : ((s ++ t) ++ u = s ++ (t ++ u))%string.
Proof.
  induction s as [|c s IH]; [done|].
  change (String c ((s ++ t) ++ u) = String c (s ++ (t ++ u)))%string.
  by rewrite IH.
Qed.

Lemma string_app_empty (s : string) : (s ++ EmptyString)%string = s.
Proof.
  induction s as [|c s IH]; [done|].
  change (String c (s ++ EmptyString) = String c s)%string. by rewrite IH.
Qed.

Lemma nth_replicate_same {A} (n i : nat) (a : A) : nth i (replicate n a) a = a.
Proof.
  rewrite nth_lookup. destruct (replicate n a !! i) as [b|] eqn:E; [|done].
  apply lookup_replicate in E as [-> _]. done.
Qed.

Lemma row_from_blank (N : nat) (gw y : Z) (n x0 : nat) (buf : string) :
  row_from (replicate N 0) gw y x0 n buf = (buf ++ spaces n)%string.
Proof.
  revert x0 buf. induction n as [|n IH]; intros x0 buf.
  - by rewrite string_app_empty.
  - rewrite row_from_S, IH, nth_replicate_same, string_app_assoc. done.
Qed.

(** X21: a screen on which every read gives [false] is drawn as blanks:
    render and print write, for each of the [height/3 + 1] rows, the cursor
    move to line [y + 2], column 2 and [width/2 + 1] spaces, then a
    newline. *)
Theorem blank_screen_prints_spaces (w : World)
    (Hready : ready w) (Halloc : allocated w)
    (Hblank : forall x y, 0 <= x -> 0 <= y ->
                          getScreenPixel SCR_VALID x y w = Some (false, w)) :
  exists w',
    (renderScreen SCR_VALID ;; printScreen SCR_VALID) w
    = Some (map (fun y => printXY (Z.of_nat y + 2) 2
                            (spaces (Z.to_nat (width (screen w) / 2 + 1))))
                (seq 0 (Z.to_nat (height (screen w) / 3 + 1))) ++ [endl],
            w').
Proof.
  destruct (renderScreen_blank w Hready Halloc Hblank) as (w' & Hrun & Hg).
  destruct (render_then_print w Hready Halloc) as (w1 & g & Hrun1 & Hg1 & Hboth & _).
  assert (w1 = w') as -> by congruence.
  assert (g = replicate (Z.to_nat (glyphWidth (screen w) * glyphHeight (screen w))) 0)
    as -> by congruence.
  exists w'. rewrite Hboth. do 2 f_equal.
  unfold screen_text. f_equal. apply map_ext. intros y.
  change (row_text ?g ?gw ?y) with (row_from g gw y 0 (Z.to_nat gw) EmptyString).
  by rewrite row_from_blank.
Qed.

Lemma blank_screen_prints_spaces_witness :
  exists w',
    (renderScreen SCR_VALID ;; printScreen SCR_VALID) demo_world
    = Some ([printXY 2 2 (spaces 2); printXY 3 2 (spaces 2); endl], w').
Proof.
  apply (blank_screen_prints_spaces demo_world demo_ready demo_allocated).
  intros x y Hx Hy.
  rewrite (getScreenPixel_ready demo_world (replicate 6 false) x y
             demo_ready eq_refl eq_refl Hx Hy).
  by rewrite pixel_at_cleared.
Defined.

(** ** Redraw locality and the life cycle of the arrays *)

Lemma cell_value_insert_ne (s : Screen) (l : list bool) (x y i : Z) (v : bool) :
  is_u8 (width s) -> is_u8 (height s) -> height s < 255 ->
  0 <= x < width s -> 0 <= y < height s ->
  0 <= i < glyphWidth s * glyphHeight s ->
  i <> y / 3 * glyphWidth s + x / 2 ->
  cell_value s (<[Z.to_nat (y * width s + x) := v]> l) i = cell_value s l i.
Proof.
  intros Hw Hh Hlt Hx Hy Hi Hne.
  destruct (glyph_dims s Hw Hh) as [Hgw Hgh].
  assert (Hgh' : glyphHeight s <= 85).
  { unfold glyphHeight, is_u8 in *.
    pose proof (Z.div_mod (height s) 3 ltac:(lia)).
    pose proof (Z.mod_pos_bound (height s) 3 ltac:(lia)). lia. }
  destruct (block_coords x y _ _ Hx Hy) as (_ & _ & Ex & Ey & Hdx & Hdy).
  pose proof (Z.div_mod i (glyphWidth s) ltac:(lia)) as Ei.
  pose proof (Z.mod_pos_bound i (glyphWidth s) ltac:(lia)) as Hbx.
  assert (Hby : 0 <= i / glyphWidth s < glyphHeight s).
  { split; [apply Z.div_pos; lia|]. apply Z.div_lt_upper_bound; lia. }
  unfold cell_value, block_pixels_u8.
  set (bx := i mod glyphWidth s) in *. set (by_ := i / glyphWidth s) in *.
  rewrite !u8_small by lia.
  rewrite !(pixel_at_insert_ne s l x y) by
    (try lia; intros [= E1 E2]; apply Hne;
     assert (x / 2 = bx) as -> by lia; assert (y / 3 = by_) as -> by lia; lia).
  done.
Qed.

(** X22: below height 255 a pixel write is local to its block: after
    writing the in-bounds pixel [(x, y)], a new render differs from the
    render before the write at most at the cell of block [(x/2, y/3)]. *)
Theorem render_locality (w : World) (x y i : Z) (v : bool)
    (Hready : ready w) (Halloc : allocated w)
    (Hlt : height (screen w) < 255)
    (Hx : 0 <= x < width (screen w)) (Hy : 0 <= y < height (screen w))
    (Hi : 0 <= i < glyphWidth (screen w) * glyphHeight (screen w))
    (Hne : i <> y / 3 * glyphWidth (screen w) + x / 2) :
  exists r w1 wa wb ga gb,
    setScreenPixel SCR_VALID x y v w = Some (r, w1) /\
    renderScreen SCR_VALID w = Some (tt, wa) /\ glyphs wa = Some ga /\
    renderScreen SCR_VALID w1 = Some (tt, wb) /\ glyphs wb = Some gb /\
    gb !! Z.to_nat i = ga !! Z.to_nat i.
Proof.
  destruct (renderScreen_allocated w Hready Halloc)
    as (l & g0 & Hp & Hg & Hpl & Hgl & Hrun).
  set (l' := <[Z.to_nat (y * width (screen w) + x) := v]> l).
  assert (Hr1 : ready (with_pixels l' w))
    by (unfold ready; by rewrite screen_with_pixels).
  assert (Ha1 : allocated (with_pixels l' w)).
  { eapply allocated_with_pixels; [done..|apply length_insert]. }
  destruct (renderScreen_allocated _ Hr1 Ha1)
    as (l1 & g1 & Hp1 & Hg1 & _ & _ & Hrun1).
  rewrite (pixels_with_pixels w l l' Hp) in Hp1. injection Hp1 as <-.
  rewrite screen_with_pixels in Hrun1.
  destruct Halloc as (Hw & Hh & _).
  eexists _, _, _, _, _, _.
  split; [by eapply setScreenPixel_inside|].
  split; [exact Hrun|]. split; [by eapply glyphs_with_glyphs|].
  split; [exact Hrun1|]. split; [by eapply glyphs_with_glyphs|].
  unfold render_cells. rewrite !list_lookup_fmap.
  rewrite lookup_seq_lt by lia. cbn [fmap option_fmap option_map Nat.add].
  f_equal. rewrite Z2Nat.id by lia. by apply cell_value_insert_ne.
Qed.

Lemma render_locality_witness :
  exists r w1 wa wb ga gb,
    setScreenPixel SCR_VALID 0 0 true demo_world = Some (r, w1) /\
    renderScreen SCR_VALID demo_world = Some (tt, wa) /\ glyphs wa = Some ga /\
    renderScreen SCR_VALID w1 = Some (tt, wb) /\ glyphs wb = Some gb /\
    gb !! 1%nat = ga !! 1%nat.
Proof.
  apply (render_locality demo_world 0 0 1 true demo_ready demo_allocated).
  - change (3 < 255). lia.
  - change (0 <= 0 < 2). lia.
  - change (0 <= 0 < 3). lia.
  - change (0 <= 1 < 2 * 2). lia.
  - change (1 <> 0). lia.
Defined.

(** X23: a successful [resizeScreen] on a ready, allocated screen leaves
    the same state as [destroyScreen] followed by [initScreen] with the
    flags of the screen. *)
Theorem resizeScreen_as_destroy_init (w : World) (w2 h2 : Z)
    (Hready : ready w) (Halloc : allocated w)
    (Hok : calloc_ok w (ncalloc w) && calloc_ok w (S (ncalloc w)) = true) :
  resizeScreen SCR_VALID w2 h2 w
  = (destroyScreen SCR_VALID ;; initScreen SCR_VALID (flags (screen w)) w2 h2) w.
Proof.
  pose proof (allocated_owned w Halloc) as Ho.
  destruct Halloc as (_ & _ & (l & Hp & _) & (g & Hg & _)).
  destruct (pixels_Some w l Hp) as (d & Hd & Hhd).
  destruct (glyphs_Some w g Hg) as (r & Hr & Hhr).
  rewrite (resizeScreen_owned w w2 h2 Ho).
  erewrite bind_Some; [|by apply destroyScreen_owned].
  rewrite initScreen_valid.
  apply andb_true_iff in Hok as [E1 E2].
  unfold init_status, init_world, alloc_world, destroy_world, resize_heap.
  cbn [screen heap brk ncalloc calloc_ok stderr with_heap].
  rewrite Hd, Hr, E1, E2, Hready. reflexivity.
Qed.

Lemma resizeScreen_as_destroy_init_witness :
  resizeScreen SCR_VALID 4 6 demo_world
  = (destroyScreen SCR_VALID ;; initScreen SCR_VALID (flags (screen demo_world)) 4 6)
      demo_world.
Proof.
  exact (resizeScreen_as_destroy_init demo_world 4 6 demo_ready demo_allocated eq_refl).
Defined.

(** X24: the arrays do not leak on the regular path: after an
    [initScreen] whose allocations both succeed, a [resizeScreen] (whether
    its allocations succeed or not) and a [destroyScreen], the heap is as
    it was before the [initScreen]. *)
Theorem lifecycle_restores_heap (w : World) (fl wd ht w2 h2 : Z)
    (Hfresh : heap_fresh w)
    (Hok : calloc_ok w (ncalloc w) && calloc_ok w (S (ncalloc w)) = true) :
  exists w',
    (initScreen SCR_VALID fl wd ht ;; resizeScreen SCR_VALID w2 h2 ;;
     destroyScreen SCR_VALID) w = Some (tt, w') /\
    heap w' = heap w /\
    data (screen w') = None /\ render (screen w') = None.
Proof.
  apply andb_true_iff in Hok as [E1 E2].
  pose proof (Hfresh (brk w) ltac:(lia)) as H0.
  pose proof (Hfresh (Pos.succ (brk w)) ltac:(lia)) as H1.
  pose proof (Hfresh (Pos.succ (Pos.succ (brk w))) ltac:(lia)) as H2.
  pose proof (Hfresh (Pos.succ (Pos.succ (Pos.succ (brk w)))) ltac:(lia)) as H3.
  set (w1 := init_world fl wd ht w).
  set (w2' := alloc_world (status (screen w1)) (flags (screen w1)) w2 h2 resize_msg
                (with_heap (resize_heap w1) w1)).
  exists (destroy_world w2').
  split.
  { erewrite bind_Some; [|apply initScreen_valid].
    erewrite bind_Some; [|apply resizeScreen_owned, alloc_world_owned].
    apply destroyScreen_owned, alloc_world_owned. }
  split; [|done].
  assert (Hh1 : resize_heap w1 = heap w).
  { unfold resize_heap, w1, init_world, alloc_world. rewrite E1, E2.
    cbn [screen data render heap drop_block].
    rewrite delete_insert_ne by lia.
    rewrite (delete_insert_id (heap w) (brk w)) by done.
    by rewrite delete_insert_id. }
  assert (Hb1 : brk w1 = Pos.succ (Pos.succ (brk w))).
  { unfold w1, init_world, alloc_world. by rewrite E1, E2. }
  unfold destroy_world, w2', alloc_world.
  cbn [with_heap heap brk ncalloc calloc_ok]. rewrite Hh1, Hb1.
  destruct (calloc_ok w1 (ncalloc w1)), (calloc_ok w1 (S (ncalloc w1)));
    cbn [screen data render heap drop_block].
  - rewrite delete_insert_ne by lia.
    rewrite (delete_insert_id (heap w) (Pos.succ (Pos.succ (brk w)))) by done.
    by rewrite delete_insert_id.
  - by rewrite delete_insert_id.
  - by rewrite delete_insert_id.
  - done.
Qed.

Lemma lifecycle_restores_heap_witness :
  exists w',
    (initScreen SCR_VALID 0 2 3 ;; resizeScreen SCR_VALID 4 6 ;;
     destroyScreen SCR_VALID) (boot always) = Some (tt, w') /\
    heap w' = heap (boot always).
Proof.
  destruct (lifecycle_restores_heap (boot always) 0 2 3 4 6 (boot_fresh always) eq_refl)
    as (w' & H1 & H2 & _).
  exists w'. split; [exact H1|exact H2].
Defined.
